(** * Akhil-Biswas/py: logger configuration and developer banner

    A shallow embedding of [src/core/logconfig.py] (class [Log], its two
    class-level formatters, [Log.app_logger] and the module's
    [__main__] block) and of [src/project/utils/dev.py] ([logo],
    [banner] and the module body).

    The Python code is a thin composition of library objects, so the
    embedding comes in two layers:
    - the library behaviour the code relies on (CPython's [logging] and
      [time.strftime], printf-style [%] formatting with a mapping,
      colorlog 6's [ColoredFormatter], [rich]'s renderables), written
      as executable functions over byte strings and an explicit world
      state;
    - the repository code itself, transcribed statement by statement on
      top of that layer. *)

From Stdlib Require Import ZArith Ascii String List Lia DecimalString.
From stdpp Require Import base option gmap strings list.

Open Scope string_scope.
Open Scope Z_scope.

(** ** Byte strings and number rendering *)

Module Str.

(** The escape byte written [\033] in the Python source. *)
Definition ESC : string := String (ascii_of_nat 27) "".

(** The line feed written [\n]. *)
Definition LF : string := String (ascii_of_nat 10) "".

(** [str(n)] for an integer. *)
Definition str_int (n : Z) : string := NilZero.string_of_int (Z.to_int n).

Fixpoint replicate_char (n : nat) (c : ascii) : string :=
  match n with
  | O => ""
  | S k => String c (replicate_char k c)
  end.

(** [%0<width>d]: sign first, then zeros up to the field width. *)
Definition pad_zero (width : nat) (n : Z) : string :=
  let sign := if n <? 0 then "-" else "" in
  let body := str_int (Z.abs n) in
  sign ++ replicate_char (width - String.length sign - String.length body) "0"
       ++ body.

(** [%<width>s] and [%<width>d]: right-justified in blanks. *)
Definition pad_space (width : nat) (s : string) : string :=
  replicate_char (width - String.length s) " " ++ s.

(** [sep.join(parts)]. *)
Fixpoint join (sep : string) (parts : list string) : string :=
  match parts with
  | [] => ""
  | [p] => p
  | p :: rest => p ++ sep ++ join sep rest
  end.

(** [s.split(sep)] for a one-byte separator; [cur] is the piece being
    read. *)
Fixpoint split_on (sep : ascii) (cur : string) (s : string) : list string :=
  match s with
  | "" => [cur]
  | String c rest =>
      if Ascii.eqb c sep then cur :: split_on sep "" rest
      else split_on sep (cur ++ String c "") rest
  end.

Definition split (sep : ascii) (s : string) : list string := split_on sep "" s.

(** [s.startswith(p)] and [s.endswith(p)]. *)
Definition startswith (p s : string) : bool := String.prefix p s.

Definition endswith (p s : string) : bool :=
  let n := String.length s in
  let k := String.length p in
  (k <=? n)%nat && String.eqb (String.substring (n - k) k s) p.

(** [s.find(p) >= 0]. *)
Fixpoint contains (p s : string) : bool :=
  String.prefix p s ||
  match s with
  | "" => false
  | String _ rest => contains p rest
  end.

(** [os.path.dirname] of a relative POSIX path: everything before the
    last slash. *)
Definition dirname (path : string) : string :=
  join "/" (removelast (split "/" path)).

End Str.

(** ** [time.struct_time] and [time.strftime] *)

Module Time.
Import Str.

(** The broken-down local time of [time.localtime]; only the fields
    that the directives below read. *)
Record struct_time := {
  tm_year : Z;
  tm_mon : Z;
  tm_mday : Z;
  tm_hour : Z;
  tm_min : Z;
  tm_sec : Z
}.

(** [%b] in the C locale. *)
Definition month_abbr (m : Z) : string :=
  nth (Z.to_nat (m - 1))
      ["Jan"; "Feb"; "Mar"; "Apr"; "May"; "Jun";
       "Jul"; "Aug"; "Sep"; "Oct"; "Nov"; "Dec"] "".

(** One conversion directive; an unknown one is copied through. *)
Definition directive (c : ascii) (t : struct_time) : string :=
  if Ascii.eqb c "Y" then str_int (tm_year t)
  else if Ascii.eqb c "m" then pad_zero 2 (tm_mon t)
  else if Ascii.eqb c "b" then month_abbr (tm_mon t)
  else if Ascii.eqb c "d" then pad_zero 2 (tm_mday t)
  else if Ascii.eqb c "H" then pad_zero 2 (tm_hour t)
  else if Ascii.eqb c "M" then pad_zero 2 (tm_min t)
  else if Ascii.eqb c "S" then pad_zero 2 (tm_sec t)
  else if Ascii.eqb c "%" then "%"
  else String "%" (String c "").

(** [pct] holds when the previous byte was an unconsumed [%]. *)
Fixpoint strftime_from (pct : bool) (f : string) (t : struct_time) : string :=
  match f with
  | "" => if pct then "%" else ""
  | String c rest =>
      if pct then directive c t ++ strftime_from false rest t
      else if Ascii.eqb c "%" then strftime_from true rest t
      else String c (strftime_from false rest t)
  end.

Definition strftime (f : string) (t : struct_time) : string :=
  strftime_from false f t.

End Time.

(** ** printf-style formatting with a mapping: [fmt % dict] *)

Module Percent.
Import Str.

Inductive pyval :=
| VStr (s : string)
| VNum (n : Z).

(** A [__dict__]: the first binding of a key is the live one. *)
Definition Dict := list (string * pyval).

Fixpoint dict_get (k : string) (d : Dict) : option pyval :=
  match d with
  | [] => None
  | (k', v) :: rest => if String.eqb k k' then Some v else dict_get k rest
  end.

(** Where the scanner is inside the format string. *)
Inductive scan :=
| Text
| AfterPercent
| InKey (key : string)
| InSpec (key : string) (zero : bool) (width : nat).

Definition digit_value (c : ascii) : option nat :=
  let n := nat_of_ascii c in
  if ((48 <=? n) && (n <=? 57))%nat then Some (n - 48)%nat else None.

(** The conversion itself; [None] stands for the [KeyError],
    [TypeError] or [ValueError] Python raises. A number under [%s] is
    rendered as an integer. *)
Definition convert (key : string) (zero : bool) (width : nat) (c : ascii)
    (d : Dict) : option string :=
  match dict_get key d with
  | None => None
  | Some (VStr s) =>
      if Ascii.eqb c "s" then Some (pad_space width s) else None
  | Some (VNum n) =>
      if Ascii.eqb c "d" then
        Some (if zero then pad_zero width n else pad_space width (str_int n))
      else if Ascii.eqb c "s" then Some (pad_space width (str_int n))
      else None
  end.

Fixpoint format_from (st : scan) (f : string) (d : Dict) : option string :=
  match f with
  | "" => match st with Text => Some "" | _ => None end
  | String c rest =>
      match st with
      | Text =>
          if Ascii.eqb c "%" then format_from AfterPercent rest d
          else String c <$> format_from Text rest d
      | AfterPercent =>
          if Ascii.eqb c "%" then String c <$> format_from Text rest d
          else if Ascii.eqb c "(" then format_from (InKey "") rest d
          else None
      | InKey key =>
          if Ascii.eqb c ")" then format_from (InSpec key false 0) rest d
          else format_from (InKey (key ++ String c "")) rest d
      | InSpec key zero width =>
          match digit_value c with
          | Some O =>
              if (width =? 0)%nat then format_from (InSpec key true 0) rest d
              else format_from (InSpec key zero (10 * width)) rest d
          | Some v => format_from (InSpec key zero (10 * width + v)) rest d
          | None =>
              match convert key zero width c d with
              | Some piece => String.append piece <$> format_from Text rest d
              | None => None
              end
          end
      end
  end.

(** [fmt % d]. *)
Definition format (f : string) (d : Dict) : option string :=
  format_from Text f d.

End Percent.

(** ** colorlog's escape-code table *)

Module Colorlog.
Import Str Percent.

(** [colorlog.escape_codes.esc]. *)
Definition esc (codes : list Z) : string :=
  ESC ++ "[" ++ join ";" (map str_int codes) ++ "m".

Definition escape_codes_foreground : list (string * Z) :=
  [("black", 30); ("red", 31); ("green", 32); ("yellow", 33);
   ("blue", 34); ("purple", 35); ("cyan", 36); ("white", 37);
   ("light_black", 90); ("light_red", 91); ("light_green", 92);
   ("light_yellow", 93); ("light_blue", 94); ("light_purple", 95);
   ("light_cyan", 96); ("light_white", 97)].

(** The entries of [colorlog.escape_codes.escape_codes] for the
    unprefixed foreground colours and the three attributes. *)
Definition escape_codes : list (string * string) :=
  [("reset", esc [0]); ("bold", esc [1]); ("thin", esc [2])]
  ++ flat_map (fun '(name, code) =>
                 [(name, esc [code]);
                  ("bold_" ++ name, esc [1; code]);
                  ("thin_" ++ name, esc [2; code])])
              escape_codes_foreground.

Fixpoint lookup_str (k : string) (d : list (string * string)) : option string :=
  match d with
  | [] => None
  | (k', v) :: rest => if String.eqb k k' then Some v else lookup_str k rest
  end.

(** [parse_colors]: the codes of a comma-separated list of names,
    concatenated; an unknown name is a [KeyError]. *)
Fixpoint parse_names (names : list string) : option string :=
  match names with
  | [] => Some ""
  | n :: rest =>
      if String.eqb n "" then parse_names rest
      else match lookup_str n escape_codes with
           | Some code => String.append code <$> parse_names rest
           | None => None
           end
  end.

Definition parse_colors (s : string) : option string :=
  parse_names (split "," s).

(** [ColoredFormatter._get_escape_code]: [log_colors.get(item, "")]. *)
Definition get_escape_code (log_colors : list (string * string))
    (item : string) : option string :=
  parse_colors (default "" (lookup_str item log_colors)).

(** [ColoredFormatter._escape_code_map] with no secondary colours and
    with neither [NO_COLOR] nor a non-terminal [stream] blanking the
    codes: the table plus the [log_color] of the level. *)
Definition escape_code_map (log_colors : list (string * string))
    (levelname : string) : option Dict :=
  c ← get_escape_code log_colors levelname;
  Some (map (fun '(k, v) => (k, VStr v)) (escape_codes ++ [("log_color", c)])).

End Colorlog.

(** ** CPython's [logging]: records and formatters *)

Module Logging.
Import Str Time Percent.

Inductive Level := DEBUG | INFO | WARNING | ERROR | CRITICAL.

Definition level_no (l : Level) : Z :=
  match l with
  | DEBUG => 10
  | INFO => 20
  | WARNING => 30
  | ERROR => 40
  | CRITICAL => 50
  end.

Definition NOTSET : Z := 0.

Definition getLevelName (l : Level) : string :=
  match l with
  | DEBUG => "DEBUG"
  | INFO => "INFO"
  | WARNING => "WARNING"
  | ERROR => "ERROR"
  | CRITICAL => "CRITICAL"
  end.

(** [sys.exc_info()] of a handled exception: the class name, [str] of
    the value and the rendered stack frames (one or more full lines). *)
Record ExcInfo := {
  exc_type : string;
  exc_value : string;
  exc_frames : string
}.

(** A [LogRecord] made without [args]; [rec_time] is
    [time.localtime(created)] and [rec_msecs] the whole milliseconds
    of [created]. *)
Record LogRecord := {
  rec_name : string;
  rec_level : Level;
  rec_msg : string;
  rec_time : struct_time;
  rec_msecs : Z;
  rec_exc_info : option ExcInfo
}.

(** [logging.Formatter] ([PercentStyle]) and
    [colorlog.ColoredFormatter], both with [style="%"]. *)
Inductive Style :=
| PercentStyle
| ColoredStyle (log_colors : list (string * string)) (reset : bool).

Record Formatter := {
  fmt : string;
  datefmt : option string;
  style : Style
}.

Definition default_time_format : string := "%Y-%m-%d %H:%M:%S".

(** [Formatter.formatTime]; without a [datefmt] the default format is
    completed by [default_msec_format = "%s,%03d"]. *)
Definition formatTime (f : Formatter) (r : LogRecord) : string :=
  match datefmt f with
  | Some df => strftime df (rec_time r)
  | None =>
      strftime default_time_format (rec_time r)
        ++ "," ++ pad_zero 3 (rec_msecs r)
  end.

(** [PercentStyle.usesTime]. *)
Definition usesTime (f : Formatter) : bool := contains "%(asctime)" (fmt f).

(** The attributes of the record a format string can name. *)
Definition record_dict (r : LogRecord) (asctime : option string) : Dict :=
  ([("name", VStr (rec_name r));
    ("levelno", VNum (level_no (rec_level r)));
    ("levelname", VStr (getLevelName (rec_level r)));
    ("msecs", VNum (rec_msecs r));
    ("message", VStr (rec_msg r))]
   ++ match asctime with
      | Some s => [("asctime", VStr s)]
      | None => []
      end)%list.

(** [ColoredFormatter._append_reset]. *)
Definition append_reset (reset : bool) (escapes : Dict) (message : string)
    : option string :=
  match dict_get "reset" escapes with
  | Some (VStr code) =>
      Some (if reset && negb (endswith code message)
            then message ++ code else message)
  | _ => None
  end.

(** [formatMessage]: the plain formatter applies the format string to
    the record's attributes, the coloured one to a [ColoredRecord]
    (the attributes overlaid with the escape codes) and then appends
    the reset code. *)
Definition formatMessage (f : Formatter) (r : LogRecord)
    (asctime : option string) : option string :=
  match style f with
  | PercentStyle => Percent.format (fmt f) (record_dict r asctime)
  | ColoredStyle log_colors reset =>
      escapes ← Colorlog.escape_code_map log_colors
                  (getLevelName (rec_level r));
      message ← Percent.format (fmt f) (escapes ++ record_dict r asctime)%list;
      append_reset reset escapes message
  end.

(** [Formatter.formatException]: the traceback without its final
    newline. *)
Definition formatException (ei : ExcInfo) : string :=
  "Traceback (most recent call last):" ++ LF
    ++ exc_frames ei ++ exc_type ei ++ ": " ++ exc_value ei.

(** [Formatter.format]. *)
Definition format (f : Formatter) (r : LogRecord) : option string :=
  let asctime := if usesTime f then Some (formatTime f r) else None in
  s ← formatMessage f r asctime;
  Some match rec_exc_info r with
       | None => s
       | Some ei =>
           (if endswith LF s then s else s ++ LF) ++ formatException ei
       end.

End Logging.

(** ** The process: exceptions, files, standard streams, logger registry *)

Module Runtime.
Import Str Time Logging.

(** The exceptions that can arise; an [OSError] carries the path as it
    was given, relative to the working directory. *)
Inductive PyExn :=
| FileNotFoundError (path : string)
| PermissionError (path : string)
| ZeroDivisionError (message : string).

(** [isinstance(e, OSError)] and [isinstance(e, Exception)]. *)
Definition is_OSError (e : PyExn) : bool :=
  match e with
  | FileNotFoundError _ | PermissionError _ => true
  | ZeroDivisionError _ => false
  end.

Definition is_Exception (e : PyExn) : bool := true.

Inductive Outcome (A : Type) :=
| Returns (a : A)
| Raises (e : PyExn).
Arguments Returns {A} a.
Arguments Raises {A} e.

Inductive StdStream := Stdout | Stderr.

Inductive FileMode :=
| ModeW   (* "w": create or truncate *)
| ModeA.  (* "a": create or keep, every write goes to the end *)

Inductive Target :=
| ToStream (s : StdStream)
| ToFile (baseFilename : string) (mode : FileMode) (encoding : string).

(** A handler object; [h_id] is its identity ([id(handler)]), under
    which an open file keeps its write position. A handler without a
    formatter uses [%(message)s]. *)
Record Handler := {
  h_id : nat;
  h_level : Z;
  h_formatter : option Formatter;
  h_target : Target
}.

Record Logger := {
  l_name : string;
  l_level : Z;
  l_propagate : bool;
  l_handlers : list Handler
}.

(** Paths are relative to the working directory. A directory is
    absent from [dirs], or present and flagged writable or not; the
    flag decides whether files under it may be opened for writing. *)
Record FS := {
  dirs : gmap string bool;
  files : gmap string string
}.

Record OpenFile := {
  of_path : string;
  of_append : bool;
  of_pos : nat
}.

Record World := {
  fs : FS;
  open_files : gmap nat OpenFile;
  loggerDict : gmap string Logger;
  root : Logger;
  sys_stdout : string;
  sys_stderr : string;
  next_id : nat
}.

Definition set_fs (x : FS) (w : World) : World :=
  {| fs := x; open_files := open_files w; loggerDict := loggerDict w;
     root := root w; sys_stdout := sys_stdout w; sys_stderr := sys_stderr w;
     next_id := next_id w |}.

Definition set_open_files (x : gmap nat OpenFile) (w : World) : World :=
  {| fs := fs w; open_files := x; loggerDict := loggerDict w;
     root := root w; sys_stdout := sys_stdout w; sys_stderr := sys_stderr w;
     next_id := next_id w |}.

Definition set_loggerDict (x : gmap string Logger) (w : World) : World :=
  {| fs := fs w; open_files := open_files w; loggerDict := x;
     root := root w; sys_stdout := sys_stdout w; sys_stderr := sys_stderr w;
     next_id := next_id w |}.

Definition set_root (x : Logger) (w : World) : World :=
  {| fs := fs w; open_files := open_files w; loggerDict := loggerDict w;
     root := x; sys_stdout := sys_stdout w; sys_stderr := sys_stderr w;
     next_id := next_id w |}.

Definition set_stdout (x : string) (w : World) : World :=
  {| fs := fs w; open_files := open_files w; loggerDict := loggerDict w;
     root := root w; sys_stdout := x; sys_stderr := sys_stderr w;
     next_id := next_id w |}.

Definition set_stderr (x : string) (w : World) : World :=
  {| fs := fs w; open_files := open_files w; loggerDict := loggerDict w;
     root := root w; sys_stdout := sys_stdout w; sys_stderr := x;
     next_id := next_id w |}.

Definition set_next_id (x : nat) (w : World) : World :=
  {| fs := fs w; open_files := open_files w; loggerDict := loggerDict w;
     root := root w; sys_stdout := sys_stdout w; sys_stderr := sys_stderr w;
     next_id := x |}.

(** The root logger of a fresh interpreter: level WARNING, no
    handlers. *)
Definition fresh_root : Logger :=
  {| l_name := "root"; l_level := level_no WARNING;
     l_propagate := true; l_handlers := [] |}.

(** A process that has just started on the file system [x]. *)
Definition fresh_process (x : FS) : World :=
  {| fs := x; open_files := ∅; loggerDict := ∅; root := fresh_root;
     sys_stdout := ""; sys_stderr := ""; next_id := 0 |}.

(** *** Statements: a state and exception monad *)

Definition M (A : Type) : Type := World → Outcome A * World.

#[global] Instance M_ret : MRet M := λ A a w, (Returns a, w).

#[global] Instance M_bind : MBind M := λ A B k m w,
  match m w with
  | (Returns a, w') => k a w'
  | (Raises e, w') => (Raises e, w')
  end.

Definition raise {A} (e : PyExn) : M A := λ w, (Raises e, w).

Definition modify (f : World → World) : M unit := λ w, (Returns tt, f w).

Definition gets {A} (f : World → A) : M A := λ w, (Returns (f w), w).

(** [try: body except <class>: handler], the class given as its
    [isinstance] test. *)
Definition try_except {A} (body : M A) (catches : PyExn → bool)
    (handler : PyExn → M A) : M A := λ w,
  match body w with
  | (Returns a, w') => (Returns a, w')
  | (Raises e, w') => if catches e then handler e w' else (Raises e, w')
  end.

(** A new object identity. *)
Definition fresh_id : M nat := λ w,
  (Returns (next_id w), set_next_id (S (next_id w)) w).

(** *** Files *)

(** [open(path, mode, encoding=...)] for a writing mode, bound to the
    object [id]. *)
Definition open_for_writing (id : nat) (path : string) (mode : FileMode)
    : M unit := λ w,
  match dirs (fs w) !! dirname path with
  | None => (Raises (FileNotFoundError path), w)
  | Some false => (Raises (PermissionError path), w)
  | Some true =>
      let old := default "" (files (fs w) !! path) in
      let content := match mode with ModeW => "" | ModeA => old end in
      let file := {| of_path := path;
                     of_append := match mode with ModeW => false | ModeA => true end;
                     of_pos := String.length content |} in
      (Returns tt,
       set_open_files (<[id := file]> (open_files w))
         (set_fs {| dirs := dirs (fs w);
                    files := <[path := content]> (files (fs w)) |} w))
  end.

(** The bytes of a file after [data] is written at offset [pos]; a
    gap past the end reads as zero bytes. *)
Definition write_at (content : string) (pos : nat) (data : string) : string :=
  let n := String.length content in
  let k := String.length data in
  String.substring 0 pos content
    ++ replicate_char (pos - n) zero
    ++ data
    ++ String.substring (pos + k) (n - (pos + k)) content.

(** [stream.write(data); stream.flush()] on the file opened under
    [id]. *)
Definition file_write (id : nat) (data : string) : M unit := λ w,
  match open_files w !! id with
  | None => (Returns tt, w)
  | Some file =>
      let content := default "" (files (fs w) !! of_path file) in
      let pos := if of_append file then String.length content
                 else of_pos file in
      let file' := {| of_path := of_path file; of_append := of_append file;
                      of_pos := (pos + String.length data)%nat |} in
      (Returns tt,
       set_open_files (<[id := file']> (open_files w))
         (set_fs {| dirs := dirs (fs w);
                    files := <[of_path file := write_at content pos data]>
                               (files (fs w)) |} w))
  end.

Definition std_write (s : StdStream) (data : string) : M unit :=
  match s with
  | Stdout => modify (λ w, set_stdout (sys_stdout w ++ data) w)
  | Stderr => modify (λ w, set_stderr (sys_stderr w ++ data) w)
  end.

End Runtime.

(** ** CPython's [logging]: handlers, loggers and the registry *)

Module Loggers.
Import Str Time Logging Runtime.

(** A reference to a logger object: the root, or the entry of
    [Logger.manager.loggerDict] under a name. *)
Inductive LogRef :=
| RootLogger
| NamedLogger (name : string).

Definition new_logger (name : string) : Logger :=
  {| l_name := name; l_level := NOTSET; l_propagate := true;
     l_handlers := [] |}.

(** [logging.getLogger(name)]: the same object for the same name,
    created on first use. *)
Definition getLogger (name : string) : M LogRef := λ w,
  if String.eqb name "" || String.eqb name (l_name (root w)) then
    (Returns RootLogger, w)
  else
    match loggerDict w !! name with
    | Some _ => (Returns (NamedLogger name), w)
    | None =>
        (Returns (NamedLogger name),
         set_loggerDict (<[name := new_logger name]> (loggerDict w)) w)
    end.

Definition deref (w : World) (ref : LogRef) : Logger :=
  match ref with
  | RootLogger => root w
  | NamedLogger n => default (new_logger n) (loggerDict w !! n)
  end.

Definition update (ref : LogRef) (f : Logger → Logger) : M unit :=
  modify (λ w,
    match ref with
    | RootLogger => set_root (f (root w)) w
    | NamedLogger n =>
        set_loggerDict (<[n := f (deref w ref)]> (loggerDict w)) w
    end).

(** [Logger.setLevel]. *)
Definition setLevel (ref : LogRef) (level : Z) : M unit :=
  update ref (λ l, {| l_name := l_name l; l_level := level;
                      l_propagate := l_propagate l;
                      l_handlers := l_handlers l |}).

(** [Logger.addHandler]: [if not (hdlr in self.handlers): append],
    membership being object identity. *)
Definition addHandler (ref : LogRef) (h : Handler) : M unit :=
  update ref (λ l,
    if bool_decide (h_id h ∈ map h_id (l_handlers l)) then l
    else {| l_name := l_name l; l_level := l_level l;
            l_propagate := l_propagate l;
            l_handlers := l_handlers l ++ [h] |}).

(** [logging.FileHandler(filename, mode, encoding)]: the file is
    opened by the constructor ([delay=False]). *)
Definition FileHandler (filename : string) (mode : FileMode)
    (encoding : string) : M Handler :=
  id ← fresh_id;
  _ ← open_for_writing id filename mode;
  mret {| h_id := id; h_level := NOTSET; h_formatter := None;
          h_target := ToFile filename mode encoding |}.

(** [logging.StreamHandler(stream=None)]:
    [if stream is None: stream = sys.stderr]. *)
Definition StreamHandler (stream : option StdStream) : M Handler :=
  id ← fresh_id;
  mret {| h_id := id; h_level := NOTSET; h_formatter := None;
          h_target := ToStream (default Stderr stream) |}.

(** [Handler.setLevel] and [Handler.setFormatter], on a handler that
    is not yet attached to any logger. *)
Definition Handler_setLevel (h : Handler) (level : Z) : Handler :=
  {| h_id := h_id h; h_level := level; h_formatter := h_formatter h;
     h_target := h_target h |}.

Definition Handler_setFormatter (h : Handler) (f : Formatter) : Handler :=
  {| h_id := h_id h; h_level := h_level h; h_formatter := Some f;
     h_target := h_target h |}.

Definition defaultFormatter : Formatter :=
  {| fmt := "%(message)s"; datefmt := None; style := PercentStyle |}.

(** [StreamHandler.emit]: [msg = self.format(record)], then
    [stream.write(msg + "\n")] and a flush. A formatting error goes to
    [handleError], whose diagnostic is left out. *)
Definition emit (h : Handler) (r : LogRecord) : M unit :=
  match format (default defaultFormatter (h_formatter h)) r with
  | None => mret tt
  | Some msg =>
      match h_target h with
      | ToStream s => std_write s (msg ++ LF)
      | ToFile _ _ _ => file_write (h_id h) (msg ++ LF)
      end
  end.

(** [s.rfind(".", 0, limit)]; [i] is the index of the head of [s]. *)
Fixpoint rfind_dot (i limit : nat) (s : string) : option nat :=
  match s with
  | "" => None
  | String c rest =>
      if (limit <=? i)%nat then None
      else match rfind_dot (S i) limit rest with
           | Some j => Some j
           | None => if Ascii.eqb c "." then Some i else None
           end
  end.

(** The prefixes [Manager._fixupParents] tries, longest first. *)
Fixpoint parent_candidates (fuel : nat) (name : string) (i : option nat)
    : list string :=
  match fuel, i with
  | S f, Some (S k) =>
      String.substring 0 (S k) name
        :: parent_candidates f name (rfind_dot 0 k name)
  | _, _ => []
  end.

(** The parent of the logger called [name]: the longest candidate that
    is a logger, else the root. *)
Definition parent (w : World) (name : string) : LogRef :=
  let n := String.length name in
  match filter (λ c, bool_decide (is_Some (loggerDict w !! c)))
               (parent_candidates n name (rfind_dot 0 n name)) with
  | c :: _ => NamedLogger c
  | [] => RootLogger
  end.

(** The logger and its ancestors up to the root. *)
Fixpoint chain (fuel : nat) (w : World) (ref : LogRef) : list Logger :=
  match ref with
  | RootLogger => [root w]
  | NamedLogger n =>
      deref w ref ::
      match fuel with
      | O => []
      | S f => chain f w (parent w n)
      end
  end.

Definition ancestry (w : World) (ref : LogRef) : list Logger :=
  chain (String.length (l_name (deref w ref))) w ref.

(** The handlers [Logger.callHandlers] visits: those of each logger
    of the chain, up to and including the first that does not
    propagate. *)
Fixpoint reached (ls : list Logger) : list Handler :=
  match ls with
  | [] => []
  | l :: rest =>
      (l_handlers l ++ if l_propagate l then reached rest else [])%list
  end.

Fixpoint call_each (hs : list Handler) (r : LogRecord) : M unit :=
  match hs with
  | [] => mret tt
  | h :: rest =>
      _ ← (if level_no (rec_level r) >=? h_level h then emit h r
           else mret tt);
      call_each rest r
  end.

(** [logging.lastResort]. *)
Definition lastResort : Handler :=
  {| h_id := 0; h_level := level_no WARNING; h_formatter := None;
     h_target := ToStream Stderr |}.

(** [Logger.callHandlers]. *)
Definition callHandlers (ref : LogRef) (r : LogRecord) : M unit := λ w,
  match reached (ancestry w ref) with
  | [] => call_each [lastResort] r w
  | hs => call_each hs r w
  end.

(** [Logger.getEffectiveLevel]: the first level set along the chain. *)
Definition getEffectiveLevel (w : World) (ref : LogRef) : Z :=
  match filter (λ l, bool_decide (l_level l ≠ NOTSET)) (ancestry w ref) with
  | l :: _ => l_level l
  | [] => NOTSET
  end.

Definition isEnabledFor (w : World) (ref : LogRef) (lvl : Level) : bool :=
  level_no lvl >=? getEffectiveLevel w ref.

(** The clock reading a record is stamped with: local time and whole
    milliseconds. *)
Definition Timestamp : Type := struct_time * Z.

(** [Logger._log] behind its level test: make the record, hand it to
    the handlers. *)
Definition log (ref : LogRef) (lvl : Level) (msg : string)
    (exc : option ExcInfo) (now : Timestamp) : M unit := λ w,
  if isEnabledFor w ref lvl then
    callHandlers ref
      {| rec_name := l_name (deref w ref); rec_level := lvl;
         rec_msg := msg; rec_time := now.1; rec_msecs := now.2;
         rec_exc_info := exc |} w
  else (Returns tt, w).

Definition debug (ref : LogRef) (msg : string) := log ref DEBUG msg None.
Definition info (ref : LogRef) (msg : string) := log ref INFO msg None.
Definition warning (ref : LogRef) (msg : string) := log ref WARNING msg None.
Definition error (ref : LogRef) (msg : string) := log ref ERROR msg None.
Definition critical (ref : LogRef) (msg : string) := log ref CRITICAL msg None.

(** [Logger.exception(msg)] is [error(msg, exc_info=True)]: the
    exception being handled is attached. *)
Definition exception (ref : LogRef) (msg : string) (handled : ExcInfo) :=
  log ref ERROR msg (Some handled).

End Loggers.

(** ** [src/core/logconfig.py] *)

Module Logconfig.
Import Str Time Logging Runtime Loggers.

(** [Log.file_formatter]: a [logging.Formatter] given only a format
    string. *)
Definition file_formatter : Formatter :=
  {| fmt := "%(levelname)s:    %(asctime)s - %(name)s - %(message)s";
     datefmt := None;
     style := PercentStyle |}.

(** The string first bound to [stream_formatter]: two adjacent
    literals, [\033] being the escape byte. *)
Definition stream_formatter_fmt : string :=
  ("%(log_color)s%(levelname)s%(reset)s:    [%(asctime)s,"
     ++ ESC ++ "[1;90m%(msecs)03d" ++ ESC ++ "[0m] - {{"
     ++ ESC ++ "[38;2;235;9;220m%(name)s" ++ ESC ++ "[0m}} @")
    ++ "%(log_color)s%(message)s".

Definition log_colors : list (string * string) :=
  [("DEBUG", "cyan");
   ("INFO", "green");
   ("WARNING", "yellow");
   ("ERROR", "red");
   ("CRITICAL", "bold_red")].

(** [Log.stream_formatter]: a [ColoredFormatter] over that string;
    [reset] keeps its default [True]. *)
Definition stream_formatter : Formatter :=
  {| fmt := stream_formatter_fmt;
     datefmt := Some "%Y/%b/%d %H:%M:%S";
     style := ColoredStyle log_colors true |}.

(** An instance of [Log]. *)
Record Log := { log_name : string }.

(** The expression statement [a/b], its value dropped. *)
Definition truediv (a b : Z) : M unit :=
  if b =? 0 then raise (ZeroDivisionError "division by zero") else mret tt.

(** [sys.exc_info()] inside the [except] clause that caught [e];
    [frames] is the rendered stack. *)
Definition exc_info_of (e : PyExn) (frames : string) : ExcInfo :=
  match e with
  | FileNotFoundError path =>
      {| exc_type := "FileNotFoundError";
         exc_value := "[Errno 2] No such file or directory: '" ++ path ++ "'";
         exc_frames := frames |}
  | PermissionError path =>
      {| exc_type := "PermissionError";
         exc_value := "[Errno 13] Permission denied: '" ++ path ++ "'";
         exc_frames := frames |}
  | ZeroDivisionError message =>
      {| exc_type := "ZeroDivisionError"; exc_value := message;
         exc_frames := frames |}
  end.

Section Body.

(** The module's [__name__] while its body runs: ["__main__"] when
    the file is executed, the import path otherwise. *)
Variable __name__ : string.

(** [Log.__init__(self, log_name=__name__)]: the default is
    evaluated once, when the [def] is executed in this module. *)
Definition __init__ (log_name : option string) : Log :=
  {| log_name := default __name__ log_name |}.

(** [Log.app_logger]. *)
Definition app_logger (self : Log) : M LogRef :=
  logger ← getLogger (log_name self);
  _ ← setLevel logger (level_no DEBUG);
  file_handler ← FileHandler "logs/app.log" ModeW "utf-8";
  let file_handler := Handler_setLevel file_handler (level_no DEBUG) in
  stream_handler ← StreamHandler None;
  let stream_handler := Handler_setLevel stream_handler (level_no DEBUG) in
  let file_handler := Handler_setFormatter file_handler file_formatter in
  let stream_handler :=
    Handler_setFormatter stream_handler stream_formatter in
  _ ← addHandler logger file_handler;
  _ ← addHandler logger stream_handler;
  mret logger.

(** The block under [if __name__=="__main__":]. [clock i] is the
    time at which the [i]-th record is made, [frames] the stack
    rendered for the traceback. *)
Definition main_block (clock : nat → Timestamp) (frames : string)
    : M unit :=
  logger ← app_logger (__init__ (Some __name__));
  _ ← debug logger "debug message" (clock 0%nat);
  _ ← info logger "info message" (clock 1%nat);
  _ ← warning logger "warning message" (clock 2%nat);
  _ ← error logger "error message" (clock 3%nat);
  _ ← critical logger "critical message" (clock 4%nat);
  try_except
    (truediv 1 0)
    is_Exception
    (λ e, exception logger "unknown error" (exc_info_of e frames)
            (clock 5%nat)).

(** The whole module body: the class statement has no effect on the
    world, then the guarded block. *)
Definition module_body (clock : nat → Timestamp) (frames : string)
    : M unit :=
  if String.eqb __name__ "__main__" then main_block clock frames
  else mret tt.

End Body.

End Logconfig.

(** ** [rich]: the renderables the banner builds *)

Module Rich.

(** [rich.text.Text(text, style=...)]. *)
Record Text := {
  plain : string;
  text_style : string
}.

(** A column as [Table.add_column] records it. *)
Record Column := {
  header : string;
  justify : string;
  column_style : string;
  no_wrap : bool
}.

(** [rich.table.Table]: the attributes the banner sets, the columns
    and the rows of cells in the order they were added. *)
Record Table := {
  title : option string;
  show_lines : bool;
  title_style : option string;
  columns : list Column;
  rows : list (list string)
}.

(** [Table()]. *)
Definition Table_new : Table :=
  {| title := None; show_lines := false; title_style := None;
     columns := []; rows := [] |}.

Definition set_title (s : string) (t : Table) : Table :=
  {| title := Some s; show_lines := show_lines t;
     title_style := title_style t; columns := columns t; rows := rows t |}.

Definition set_show_lines (b : bool) (t : Table) : Table :=
  {| title := title t; show_lines := b;
     title_style := title_style t; columns := columns t; rows := rows t |}.

Definition set_title_style (s : string) (t : Table) : Table :=
  {| title := title t; show_lines := show_lines t;
     title_style := Some s; columns := columns t; rows := rows t |}.

Definition add_column (c : Column) (t : Table) : Table :=
  {| title := title t; show_lines := show_lines t;
     title_style := title_style t; columns := columns t ++ [c];
     rows := rows t |}.

Definition add_row (cells : list string) (t : Table) : Table :=
  {| title := title t; show_lines := show_lines t;
     title_style := title_style t; columns := columns t;
     rows := rows t ++ [cells] |}.

Inductive Renderable :=
| OfText (t : Text)
| OfTable (t : Table)
| AlignCenter (r : Renderable).

(** [rich.console.Console(force_terminal=..., width=...)] together
    with what has been printed on it, one entry per [print] call. *)
Record Console := {
  force_terminal : bool;
  width : option nat;
  printed : list Renderable
}.

(** [console.print(r)]. *)
Definition print (r : Renderable) (c : Console) : Console :=
  {| force_terminal := force_terminal c; width := width c;
     printed := printed c ++ [r] |}.

End Rich.

(** ** [src/project/utils/dev.py] *)

Module Dev.
Import Str Rich.

(** The module-level [console]. *)
Definition console : Console :=
  {| force_terminal := true; width := None; printed := [] |}.

(** The list [BANNER] of [logo]; raw literals are copied byte for
    byte, ["\\"] is one backslash and ["\n"] a line feed. *)
Definition BANNER : list string :=
  [" _____           _ _";
   "|  __ \         | | |";
   "| |__) |__ _  __| | |__   ___";
   "|  _  // _` |/ _` | '_ \ / _ " ++ "\";
   "| | \ \ (_| | (_| | | | |  __/";
   "|_|  \_\__,_|\__,_|_| |_|\___|" ++ " •••";
   LF].

(** [logo()], threading the console it prints on. *)
Definition logo (c : Console) : Console :=
  let banner := {| plain := join LF BANNER; text_style := "bold magenta" |} in
  print (AlignCenter (OfText banner)) c.

(** [banner()]. *)
Definition banner (c : Console) : Console :=
  let c := logo c in
  let table := Table_new in
  let table := set_title "🚀 DEVELOPER INFO" table in
  let table := set_show_lines true table in
  let table := set_title_style "bold underline yellow on black" table in
  let table :=
    add_column {| header := "PLATFORM"; justify := "center";
                  column_style := "cyan"; no_wrap := true |} table in
  let table :=
    add_column {| header := "USERNAME / URL"; justify := "left";
                  column_style := "magenta"; no_wrap := false |} table in
  let table := add_row ["GITHUB"; "Akhil-Biswas"] table in
  let table := add_row ["GITLAB"; "Akhil-Biswas"] table in
  let table := add_row ["LINKEDIN"; "akhilbiswas-radhe"] table in
  let table := add_row ["WEBSITE"; "akhil-biswas.netlify.app"] table in
  print (AlignCenter (OfTable table)) c.

(** The module body, whatever [__name__] it runs under: the last
    statement is the bare call [banner()]. *)
Definition module_body (__name__ : string) : Console :=
  banner console.

End Dev.

(** ** Vocabulary of the statements

    What [Log.app_logger] leaves behind, named once so that the
    theorems can refer to it, and the layouts and mappings as the prose
    specification words them. *)

Module Sinks.
Import Str Time Logging Runtime Loggers Logconfig.

(** The logger [getLogger name] resolves to. *)
Definition ref_of (w : World) (name : string) : LogRef :=
  if String.eqb name "" || String.eqb name (l_name (root w)) then RootLogger
  else NamedLogger name.

Definition store (ref : LogRef) (l : Logger) (w : World) : World :=
  match ref with
  | RootLogger => set_root l w
  | NamedLogger n => set_loggerDict (<[n := l]> (loggerDict w)) w
  end.

(** The file handler and the stream handler as [app_logger] attaches
    them, under the identities they were allocated. *)
Definition file_sink (id : nat) : Handler :=
  {| h_id := id; h_level := level_no DEBUG;
     h_formatter := Some file_formatter;
     h_target := ToFile "logs/app.log" ModeW "utf-8" |}.

Definition console_sink (id : nat) : Handler :=
  {| h_id := id; h_level := level_no DEBUG;
     h_formatter := Some stream_formatter;
     h_target := ToStream Stderr |}.

(** A logger after one run of [app_logger] that allocated [id] and
    [S id]. *)
Definition configured (id : nat) (l : Logger) : Logger :=
  {| l_name := l_name l; l_level := level_no DEBUG;
     l_propagate := l_propagate l;
     l_handlers := l_handlers l ++ [file_sink id; console_sink (S id)] |}.

Definition app_log : OpenFile :=
  {| of_path := "logs/app.log"; of_append := false; of_pos := 0 |}.

(** The world once [FileHandler] has opened [logs/app.log] under the
    identity [next_id w]. *)
Definition opened (w : World) : World :=
  set_open_files (<[next_id w := app_log]> (open_files w))
    (set_fs {| dirs := dirs (fs w);
               files := <["logs/app.log" := ""]> (files (fs w)) |}
       (set_next_id (S (next_id w)) w)).

(** The world after a run of [app_logger] for [name] that did not
    raise. *)
Definition after_app_logger (name : string) (w : World) : World :=
  let id := next_id w in
  let ref := ref_of w name in
  store ref (configured id (deref w ref))
    (set_next_id (S (S id))
       (set_open_files (<[id := app_log]> (open_files w))
          (set_fs {| dirs := dirs (fs w);
                     files := <["logs/app.log" := ""]> (files (fs w)) |}
             w))).

(** A logger after [setLevel(logging.DEBUG)]. *)
Definition leveled (l : Logger) : Logger :=
  {| l_name := l_name l; l_level := level_no DEBUG;
     l_propagate := l_propagate l; l_handlers := l_handlers l |}.

(** The world after a run of [app_logger] for [name] in which the
    file could not be opened. *)
Definition failed_app_logger (name : string) (w : World) : World :=
  let ref := ref_of w name in
  set_next_id (S (next_id w)) (store ref (leveled (deref w ref)) w).

(** Every handler of the logger was allocated before [next_id]: the
    next two identities are new to it. *)
Definition ids_allocated (w : World) (ref : LogRef) : bool :=
  forallb (λ h, (h_id h <? next_id w)%nat) (l_handlers (deref w ref)).

(** What a list of handlers writes on a standard stream for one
    record. *)
Definition stream_text (s : StdStream) (h : Handler) (r : LogRecord)
    : string :=
  match h_target h, format (default defaultFormatter (h_formatter h)) r with
  | ToStream s', Some msg =>
      if level_no (rec_level r) >=? h_level h then
        match s, s' with
        | Stdout, Stdout | Stderr, Stderr => msg ++ LF
        | _, _ => ""
        end
      else ""
  | _, _ => ""
  end.

Fixpoint stream_texts (s : StdStream) (hs : list Handler) (r : LogRecord)
    : string :=
  match hs with
  | [] => ""
  | h :: rest => stream_text s h r ++ stream_texts s rest r
  end.

(** The record a logging call makes. *)
Definition record_of (name : string) (lvl : Level) (msg : string)
    (exc : option ExcInfo) (now : Timestamp) : LogRecord :=
  {| rec_name := name; rec_level := lvl; rec_msg := msg;
     rec_time := now.1; rec_msecs := now.2; rec_exc_info := exc |}.

(** The text one sink writes for a record: its formatter's rendering
    and the terminator. *)
Definition file_text (r : LogRecord) : string :=
  default "" (format file_formatter r) ++ LF.

Definition console_text (r : LogRecord) : string :=
  default "" (format stream_formatter r) ++ LF.

Fixpoint concat_map (f : LogRecord → string) (rs : list LogRecord) : string :=
  match rs with
  | [] => ""
  | r :: rest => f r ++ concat_map f rest
  end.

(** The logger behind [ref] is called [name], is enabled from DEBUG
    up, reaches exactly the two sinks allocated at [id], and the
    file sink stands at the end of [logs/app.log], which holds
    [content]. *)
Definition sinks_ready (w : World) (ref : LogRef) (name : string)
    (id : nat) (content : string) : Prop :=
  l_name (deref w ref) = name
  ∧ reached (ancestry w ref) = [file_sink id; console_sink (S id)]
  ∧ getEffectiveLevel w ref = level_no DEBUG
  ∧ open_files w !! id =
      Some {| of_path := "logs/app.log"; of_append := false;
              of_pos := String.length content |}
  ∧ files (fs w) !! "logs/app.log" = Some content.

(** The world after both sinks have written the record [r]. *)
Definition logged (id : nat) (content : string) (r : LogRecord)
    (w : World) : World :=
  set_stderr (sys_stderr w ++ console_text r)
    (set_open_files
       (<[id := {| of_path := "logs/app.log"; of_append := false;
                   of_pos := (String.length content
                              + String.length (file_text r))%nat |}]>
          (open_files w))
       (set_fs {| dirs := dirs (fs w);
                  files := <["logs/app.log" := content ++ file_text r]>
                             (files (fs w)) |} w)).

(** [Log(name).app_logger()] called twice in a row. *)
Definition app_logger_twice (name : string) : M LogRef :=
  _ ← app_logger {| log_name := name |};
  app_logger {| log_name := name |}.

(** *** The specification's words *)

(** Sections 3 and 8: a logger holds no two handlers with the same
    destination. *)
Definition no_duplicate_handlers (l : Logger) : Prop :=
  NoDup (map h_target (l_handlers l)).

(** Section 3: the severity to colour mapping, in colorlog's names. *)
Definition severity_color (l : Level) : string :=
  match l with
  | DEBUG => "cyan"
  | INFO => "green"
  | WARNING => "yellow"
  | ERROR => "red"
  | CRITICAL => "bold_red"
  end.

(** Section 4.1: the timestamp [YYYY/Mon/DD HH:MM:SS]. *)
Definition spec_timestamp (t : struct_time) : string :=
  str_int (tm_year t) ++ "/" ++ month_abbr (tm_mon t) ++ "/"
    ++ pad_zero 2 (tm_mday t) ++ " " ++ pad_zero 2 (tm_hour t) ++ ":"
    ++ pad_zero 2 (tm_min t) ++ ":" ++ pad_zero 2 (tm_sec t).

(** Section 4.1: [LEVEL:    TIMESTAMP - LOGGER_NAME - MESSAGE]. *)
Definition spec_file_layout (level timestamp name message : string) : string :=
  level ++ ":    " ++ timestamp ++ " - " ++ name ++ " - " ++ message.

(** Section 4.1: [LEVEL:    [TIMESTAMP,MSEC] - {LOGGER_NAME} @ MESSAGE]. *)
Definition spec_console_layout (level timestamp msec name message : string)
    : string :=
  level ++ ":    [" ++ timestamp ++ "," ++ msec ++ "] - {" ++ name
    ++ "} @ " ++ message.

(** The visible text of a terminal line: every control sequence
    [ESC [ ... <letter>] removed. *)
Inductive ansi_state := Plain | SawEsc | InSequence.

Definition is_final_byte (c : ascii) : bool :=
  let n := nat_of_ascii c in ((64 <=? n) && (n <=? 126))%nat.

Fixpoint strip_from (st : ansi_state) (s : string) : string :=
  match s with
  | "" => ""
  | String c rest =>
      match st with
      | Plain =>
          if Ascii.eqb c (ascii_of_nat 27) then strip_from SawEsc rest
          else String c (strip_from Plain rest)
      | SawEsc =>
          if Ascii.eqb c "[" then strip_from InSequence rest
          else strip_from Plain rest
      | InSequence =>
          if is_final_byte c then strip_from Plain rest
          else strip_from InSequence rest
      end
  end.

Definition strip_ansi (s : string) : string := strip_from Plain s.

(** What the console formatter produces for a record, the escape
    codes written out: [c] is the colour code of the level. *)
Definition console_layout (c level timestamp : string) (msecs : Z)
    (name message : string) : string :=
  c ++ level ++ Colorlog.esc [0] ++ ":    [" ++ timestamp ++ ","
    ++ Colorlog.esc [1; 90] ++ pad_zero 3 msecs ++ Colorlog.esc [0]
    ++ "] - {{" ++ Colorlog.esc [38; 2; 235; 9; 220] ++ name
    ++ Colorlog.esc [0] ++ "}} @" ++ c ++ message.

(** The same text closed by the reset code, unless it already ends
    with it. *)
Definition reset_terminated (s : string) : string :=
  if endswith (Colorlog.esc [0]) s then s else s ++ Colorlog.esc [0].

(** The escape code of each colour of the mapping. *)
Definition color_code (l : Level) : string :=
  match l with
  | DEBUG => Colorlog.esc [36]
  | INFO => Colorlog.esc [32]
  | WARNING => Colorlog.esc [33]
  | ERROR => Colorlog.esc [31]
  | CRITICAL => Colorlog.esc [1; 31]
  end.

(** The six records of the [__main__] block, in order. *)
Definition sample_records (clock : nat → Timestamp) (frames : string)
    : list LogRecord :=
  [record_of "__main__" DEBUG "debug message" None (clock 0%nat);
   record_of "__main__" INFO "info message" None (clock 1%nat);
   record_of "__main__" WARNING "warning message" None (clock 2%nat);
   record_of "__main__" ERROR "error message" None (clock 3%nat);
   record_of "__main__" CRITICAL "critical message" None (clock 4%nat);
   record_of "__main__" ERROR "unknown error"
     (Some {| exc_type := "ZeroDivisionError";
              exc_value := "division by zero";
              exc_frames := frames |})
     (clock 5%nat)].

(** A claimed default of [Log()]: the name of the module that makes
    the call. *)
Record CallSite := { caller_module : string }.

(** [Log()] evaluated at a call site, in a process where
    [logconfig] was loaded under [defining_module]. *)
Definition Log_at (defining_module : string) (site : CallSite)
    (log_name : option string) : Log :=
  __init__ defining_module log_name.

(** Example inputs. *)
Definition noon : struct_time :=
  {| tm_year := 2026; tm_mon := 11; tm_mday := 3;
     tm_hour := 12; tm_min := 0; tm_sec := 5 |}.

Definition low_disk : LogRecord :=
  record_of "test" WARNING "low disk" None (noon, 7).

(** A clock that advances one millisecond per record, and a rendered
    stack of one frame. *)
Definition sample_clock (i : nat) : Timestamp := (noon, Z.of_nat i).

Definition sample_frames : string :=
  "  File logconfig.py, line 72, in <module>" ++ LF ++ "    1/0" ++ LF.

Definition test_log : Log := {| log_name := "test" |}.

Definition with_logs_dir : FS := {| dirs := {["logs" := true]}; files := ∅ |}.

Definition without_logs_dir : FS := {| dirs := ∅; files := ∅ |}.

Definition readonly_logs_dir : FS :=
  {| dirs := {["logs" := false]}; files := ∅ |}.

End Sinks.

(** ** Vocabulary of the further properties

    Sequences of logging calls, the invariant of a logger configured
    twice, and the visible form of a console line. *)

Module More.
Import Str Time Logging Runtime Loggers Logconfig Sinks.

(** One logging call without exception info: level, message and the
    time at which it is made. *)
Definition Call : Type := Level * string * Timestamp.

(** The calls made one after the other through one logger. *)
Fixpoint log_all (ref : LogRef) (calls : list Call) : M unit :=
  match calls with
  | [] => mret tt
  | (lvl, msg, stamp) :: rest =>
      _ ← log ref lvl msg None stamp;
      log_all ref rest
  end.

(** The records these calls make under a logger name. *)
Definition records_of (name : string) (calls : list Call) : list LogRecord :=
  map (λ '(lvl, msg, stamp), record_of name lvl msg None stamp) calls.

(** [logger = Log(name).app_logger()] followed by calls on [logger]. *)
Definition configure_and_log (name : string) (calls : list Call) : M LogRef :=
  logger ← app_logger {| log_name := name |};
  _ ← log_all logger calls;
  mret logger.

(** The same after two calls of [Log(name).app_logger()]. *)
Definition configure_twice_and_log (name : string) (calls : list Call)
    : M LogRef :=
  logger ← app_logger_twice name;
  _ ← log_all logger calls;
  mret logger.

(** [Log(root_name).app_logger()], then calls through another logger
    obtained by [logging.getLogger(name)]. *)
Definition configure_root_and_log (root_name name : string)
    (calls : list Call) : M LogRef :=
  _ ← app_logger {| log_name := root_name |};
  logger ← getLogger name;
  _ ← log_all logger calls;
  mret logger.

(** The name a logger obtained under [name] carries in a fresh
    process: the root logger answers to the empty name and to its
    own. *)
Definition registered_name (name : string) : string :=
  if String.eqb name "" || String.eqb name "root" then "root" else name.

(** The byte [c] occurs in [s]. *)
Fixpoint mentions (c : ascii) (s : string) : bool :=
  match s with
  | "" => false
  | String c' rest => Ascii.eqb c' c || mentions c rest
  end.

(** No escape byte occurs in [s]. *)
Definition escape_free (s : string) : bool :=
  negb (mentions (ascii_of_nat 27) s).

(** The text a terminal shows for a console line. *)
Definition visible_console_layout (level timestamp msec name message : string)
    : string :=
  level ++ ":    [" ++ timestamp ++ "," ++ msec ++ "] - {{" ++ name
    ++ "}} @" ++ message.

(** A logger configured twice: it reaches the four sinks allocated from
    [id] on, and both file sinks stand at the end of [logs/app.log],
    which holds [content]. *)
Definition sinks_doubled (w : World) (ref : LogRef) (name : string)
    (id : nat) (content : string) : Prop :=
  l_name (deref w ref) = name
  ∧ reached (ancestry w ref)
    = [file_sink id; console_sink (S id);
       file_sink (S (S id)); console_sink (S (S (S id)))]
  ∧ getEffectiveLevel w ref = level_no DEBUG
  ∧ open_files w !! id =
      Some {| of_path := "logs/app.log"; of_append := false;
              of_pos := String.length content |}
  ∧ open_files w !! S (S id) =
      Some {| of_path := "logs/app.log"; of_append := false;
              of_pos := String.length content |}
  ∧ files (fs w) !! "logs/app.log" = Some content.





End More.

(** * Properties *)

(** ** Byte-string facts *)

Module StrFacts.
Import Str.

Lemma append_cons (c : ascii) (s t : string) :
  String c s ++ t = String c (s ++ t).
Proof. reflexivity. Qed.

Lemma append_nil_l (s : string) : "" ++ s = s.
Proof. reflexivity. Qed.

Lemma append_nil_r (s : string) : s ++ "" = s.
Proof.
  induction s as [|c s IH]; [reflexivity|].
  now rewrite append_cons, IH.
Qed.

Lemma append_assoc (s t u : string) : (s ++ t) ++ u = s ++ t ++ u.
Proof.
  induction s as [|c s IH]; [reflexivity|].
  now rewrite !append_cons, IH.
Qed.

Lemma substring_all (s : string) : String.substring 0 (String.length s) s = s.
Proof. induction s as [|c s IH]; simpl; [reflexivity | now rewrite IH]. Qed.

Lemma substring_none (n : nat) (s : string) : String.substring n 0 s = "".
Proof.
  revert n; induction s as [|c s IH]; intros [|n]; simpl; auto.
Qed.

(** Writing at the end of a file appends. *)
Lemma write_at_end (content data : string) :
  Runtime.write_at content (String.length content) data = content ++ data.
Proof.
  unfold Runtime.write_at.
  rewrite substring_all, Nat.sub_diag.
  replace (String.length content
           - (String.length content + String.length data))%nat
    with 0%nat by lia.
  rewrite substring_none. simpl replicate_char.
  change ("" ++ data ++ "") with (data ++ "").
  now rewrite append_nil_r.
Qed.

Lemma length_append (s t : string) :
  String.length (s ++ t) = (String.length s + String.length t)%nat.
Proof.
  induction s as [|c s IH]; [reflexivity|].
  rewrite append_cons. simpl. now rewrite IH.
Qed.

End StrFacts.

(** ** What the two formatters render *)

Module FormatFacts.
Import Str Time Logging Runtime Loggers Logconfig Sinks StrFacts.

(** The console timestamp is [strftime] of the formatter's
    [datefmt], which spells out as year, month name, day and time. *)
Lemma stream_formatTime (r : LogRecord) :
  formatTime stream_formatter r = spec_timestamp (rec_time r).
Proof.
  transitivity (spec_timestamp (rec_time r) ++ "").
  - unfold spec_timestamp. rewrite !append_assoc. reflexivity.
  - apply append_nil_r.
Qed.

(** The file timestamp is the library default: ISO date, time, a
    comma and the milliseconds. *)
Lemma file_formatTime (r : LogRecord) :
  formatTime file_formatter r =
  str_int (tm_year (rec_time r)) ++ "-" ++ pad_zero 2 (tm_mon (rec_time r))
    ++ "-" ++ pad_zero 2 (tm_mday (rec_time r)) ++ " "
    ++ pad_zero 2 (tm_hour (rec_time r)) ++ ":"
    ++ pad_zero 2 (tm_min (rec_time r)) ++ ":"
    ++ pad_zero 2 (tm_sec (rec_time r)) ++ ","
    ++ pad_zero 3 (rec_msecs r).
Proof.
  unfold formatTime, file_formatter, datefmt.
  transitivity ((str_int (tm_year (rec_time r)) ++ "-"
    ++ pad_zero 2 (tm_mon (rec_time r))
    ++ "-" ++ pad_zero 2 (tm_mday (rec_time r)) ++ " "
    ++ pad_zero 2 (tm_hour (rec_time r)) ++ ":"
    ++ pad_zero 2 (tm_min (rec_time r)) ++ ":"
    ++ pad_zero 2 (tm_sec (rec_time r)) ++ "") ++ ","
    ++ pad_zero 3 (rec_msecs r)).
  - reflexivity.
  - now rewrite append_nil_r, !append_assoc.
Qed.

Lemma file_formatMessage (r : LogRecord) (asctime : string) :
  formatMessage file_formatter r (Some asctime) =
  Some (spec_file_layout (getLevelName (rec_level r)) asctime
          (rec_name r) (rec_msg r)).
Proof.
  unfold spec_file_layout.
  transitivity (Some (getLevelName (rec_level r) ++ ":    " ++ asctime
                        ++ " - " ++ rec_name r ++ " - " ++ rec_msg r ++ "")).
  - reflexivity.
  - now rewrite append_nil_r.
Qed.

(** The file formatter on a record that carries no exception. *)
Lemma file_format (r : LogRecord) :
  rec_exc_info r = None →
  format file_formatter r =
  Some (spec_file_layout (getLevelName (rec_level r))
          (formatTime file_formatter r) (rec_name r) (rec_msg r)).
Proof.
  intros Hexc. unfold format.
  change (usesTime file_formatter) with true. cbv iota.
  rewrite file_formatMessage, Hexc. reflexivity.
Qed.

Lemma stream_formatMessage (r : LogRecord) (asctime : string) :
  formatMessage stream_formatter r (Some asctime) =
  Some (reset_terminated
          (console_layout (color_code (rec_level r))
             (getLevelName (rec_level r)) asctime (rec_msecs r)
             (rec_name r) (rec_msg r))).
Proof.
  destruct r as [name lvl msg t ms exc];
    cbv [rec_level rec_name rec_msg rec_msecs].
  transitivity
    (Some (let body := console_layout (color_code lvl) (getLevelName lvl)
                         asctime ms name (msg ++ "") in
           if negb (endswith (Colorlog.esc [0]) body)
           then body ++ Colorlog.esc [0] else body)).
  - destruct lvl; reflexivity.
  - cbv zeta. rewrite append_nil_r. unfold reset_terminated.
    now destruct (endswith _ _).
Qed.

(** Neither formatter of [Log] can fail on a record. *)
Lemma stream_format (r : LogRecord) :
  rec_exc_info r = None →
  format stream_formatter r =
  Some (reset_terminated
          (console_layout (color_code (rec_level r))
             (getLevelName (rec_level r)) (spec_timestamp (rec_time r))
             (rec_msecs r) (rec_name r) (rec_msg r))).
Proof.
  intros Hexc. unfold format.
  change (usesTime stream_formatter) with true. cbv iota.
  rewrite stream_formatMessage, stream_formatTime, Hexc. reflexivity.
Qed.

Lemma file_format_total (r : LogRecord) :
  is_Some (format file_formatter r).
Proof.
  unfold format. change (usesTime file_formatter) with true. cbv iota.
  rewrite file_formatMessage. simpl. eauto.
Qed.

Lemma stream_format_total (r : LogRecord) :
  is_Some (format stream_formatter r).
Proof.
  unfold format. change (usesTime stream_formatter) with true. cbv iota.
  rewrite stream_formatMessage. simpl. eauto.
Qed.

End FormatFacts.

(** ** Running statements *)

Module RunFacts.
Import Str Time Logging Runtime Loggers Logconfig Sinks StrFacts FormatFacts.

Lemma bind_returns {A B} (m : M A) (k : A → M B) w a w' :
  m w = (Returns a, w') → (m ≫= k) w = k a w'.
Proof. intros H. unfold mbind, M_bind. now rewrite H. Qed.

Lemma bind_raises {A B} (m : M A) (k : A → M B) w e w' :
  m w = (Raises e, w') → (m ≫= k) w = (Raises e, w').
Proof. intros H. unfold mbind, M_bind. now rewrite H. Qed.

(** *** The registry *)

Lemma getLogger_run name w :
  getLogger name w =
  (Returns (ref_of w name),
   store (ref_of w name) (deref w (ref_of w name)) w).
Proof.
  unfold getLogger, ref_of.
  destruct (_ || _); simpl.
  - now destruct w.
  - destruct (loggerDict w !! name) eqn:E; simpl; [|reflexivity].
    rewrite insert_id by done. now destruct w.
Qed.

Lemma deref_store ref l w : deref (store ref l w) ref = l.
Proof. destruct ref; simpl; [reflexivity|]. now rewrite lookup_insert_eq. Qed.

Lemma store_store ref l l' w : store ref l (store ref l' w) = store ref l w.
Proof.
  destruct ref; simpl; [reflexivity|].
  unfold set_loggerDict; simpl. now rewrite insert_insert_eq.
Qed.

Lemma update_run ref f w :
  update ref f w = (Returns tt, store ref (f (deref w ref)) w).
Proof. now destruct ref. Qed.

Lemma not_allocated (hs : list Handler) (n m : nat) :
  forallb (λ h, (h_id h <? n)%nat) hs = true → (n <= m)%nat →
  bool_decide (m ∈ map h_id hs) = false.
Proof.
  intros H Hle. apply bool_decide_eq_false. intros Hin.
  apply list_elem_of_fmap in Hin as (h & -> & Hh).
  rewrite forallb_forall in H. apply list_elem_of_In in Hh.
  specialize (H h Hh). apply Nat.ltb_lt in H. lia.
Qed.

Lemma allocated_mono (hs : list Handler) (n m : nat) :
  forallb (λ h, (h_id h <? n)%nat) hs = true → (n <= m)%nat →
  forallb (λ h, (h_id h <? m)%nat) hs = true.
Proof.
  rewrite !forallb_forall. intros H Hle h Hh.
  specialize (H h Hh). apply Nat.ltb_lt in H. apply Nat.ltb_lt. lia.
Qed.

(** Attaching a handler the logger does not hold yet appends it. *)
Lemma addHandler_new ref h w :
  bool_decide (h_id h ∈ map h_id (l_handlers (deref w ref))) = false →
  addHandler ref h w =
  (Returns tt,
   store ref {| l_name := l_name (deref w ref);
                l_level := l_level (deref w ref);
                l_propagate := l_propagate (deref w ref);
                l_handlers := l_handlers (deref w ref) ++ [h] |} w).
Proof. intros H. unfold addHandler. rewrite update_run. now rewrite H. Qed.

(** *** The two handler constructors *)

Lemma dirname_app_log : dirname "logs/app.log" = "logs".
Proof. reflexivity. Qed.

Lemma FileHandler_run w :
  dirs (fs w) !! "logs" = Some true →
  FileHandler "logs/app.log" ModeW "utf-8" w =
  (Returns {| h_id := next_id w; h_level := NOTSET; h_formatter := None;
              h_target := ToFile "logs/app.log" ModeW "utf-8" |},
   opened w).
Proof.
  intros Hdir.
  unfold FileHandler, fresh_id, open_for_writing, mbind, M_bind.
  rewrite dirname_app_log. simpl. now rewrite Hdir.
Qed.

Lemma FileHandler_missing w :
  dirs (fs w) !! "logs" = None →
  FileHandler "logs/app.log" ModeW "utf-8" w =
  (Raises (FileNotFoundError "logs/app.log"), set_next_id (S (next_id w)) w).
Proof.
  intros Hdir.
  unfold FileHandler, fresh_id, open_for_writing, mbind, M_bind.
  rewrite dirname_app_log. simpl. now rewrite Hdir.
Qed.

Lemma FileHandler_denied w :
  dirs (fs w) !! "logs" = Some false →
  FileHandler "logs/app.log" ModeW "utf-8" w =
  (Raises (PermissionError "logs/app.log"), set_next_id (S (next_id w)) w).
Proof.
  intros Hdir.
  unfold FileHandler, fresh_id, open_for_writing, mbind, M_bind.
  rewrite dirname_app_log. simpl. now rewrite Hdir.
Qed.

Lemma StreamHandler_run stream w :
  StreamHandler stream w =
  (Returns {| h_id := next_id w; h_level := NOTSET; h_formatter := None;
              h_target := ToStream (default Stderr stream) |},
   set_next_id (S (next_id w)) w).
Proof. reflexivity. Qed.

Lemma mret_run {A} (a : A) (w : World) : (mret a : M A) w = (Returns a, w).
Proof. reflexivity. Qed.

Lemma deref_set_next_id n w ref : deref (set_next_id n w) ref = deref w ref.
Proof. now destruct ref. Qed.

Lemma deref_opened w ref : deref (opened w) ref = deref w ref.
Proof. now destruct ref. Qed.

Lemma next_id_store ref l w : next_id (store ref l w) = next_id w.
Proof. now destruct ref. Qed.

Lemma next_id_opened w : next_id (opened w) = S (next_id w).
Proof. reflexivity. Qed.

Lemma fs_store ref l w : fs (store ref l w) = fs w.
Proof. now destruct ref. Qed.

Lemma allocated_snoc (hs : list Handler) (h : Handler) (n : nat) :
  forallb (λ h, (h_id h <? n)%nat) hs = true → h_id h = n →
  forallb (λ h, (h_id h <? S n)%nat) (hs ++ [h]) = true.
Proof.
  intros H Hid. rewrite forallb_app. apply andb_true_iff. split.
  - apply (allocated_mono _ n); [assumption | lia].
  - simpl. rewrite Hid. rewrite andb_true_r. apply Nat.ltb_lt. lia.
Qed.

Lemma app_logger_run self w :
  ids_allocated w (ref_of w (log_name self)) = true →
  dirs (fs w) !! "logs" = Some true →
  app_logger self w =
  (Returns (ref_of w (log_name self)), after_app_logger (log_name self) w).
Proof.
  intros Hids Hdir. unfold app_logger, ids_allocated in *.
  rewrite (bind_returns _ _ _ _ _ (getLogger_run _ _)).
  unfold after_app_logger. cbv zeta.
  set (ref := ref_of w (log_name self)) in *.
  unfold setLevel.
  rewrite (bind_returns _ _ _ _ _ (update_run _ _ _)).
  rewrite deref_store, store_store.
  erewrite bind_returns; [|apply FileHandler_run; now rewrite fs_store].
  rewrite (bind_returns _ _ _ _ _ (StreamHandler_run _ _)).
  rewrite next_id_opened, !next_id_store.
  erewrite bind_returns.
  2:{ apply addHandler_new. cbn [Handler_setFormatter Handler_setLevel h_id].
      rewrite deref_set_next_id, deref_opened, deref_store. cbn [l_handlers].
      apply (not_allocated _ _ _ Hids). lia. }
  rewrite deref_set_next_id, deref_opened, deref_store.
  cbn [l_handlers l_name l_level l_propagate].
  erewrite bind_returns.
  2:{ apply addHandler_new. cbn [Handler_setFormatter Handler_setLevel h_id].
      rewrite deref_store. cbn [l_handlers].
      apply (not_allocated _ (S (next_id w))); [|lia].
      now apply allocated_snoc. }
  rewrite mret_run, deref_store, store_store.
  cbn [l_handlers l_name l_level l_propagate].
  f_equal. rewrite <- app_assoc.
  clear Hids Hdir. destruct ref as [|n], w; [reflexivity|].
  unfold store, configured, opened, set_next_id, set_open_files, set_fs,
    set_loggerDict; simpl.
  now rewrite insert_insert_eq.
Qed.


(** *** Emitting a record *)

Lemma emit_console id r w :
  emit (console_sink id) r w =
  (Returns tt, set_stderr (sys_stderr w ++ console_text r) w).
Proof.
  unfold emit, console_text.
  change (default defaultFormatter (h_formatter (console_sink id)))
    with stream_formatter.
  destruct (stream_format_total r) as [s Hs]. now rewrite Hs.
Qed.

Lemma emit_file id r w :
  emit (file_sink id) r w = file_write id (file_text r) w.
Proof.
  unfold emit, file_text.
  change (default defaultFormatter (h_formatter (file_sink id)))
    with file_formatter.
  destruct (file_format_total r) as [s Hs]. now rewrite Hs.
Qed.

Lemma file_write_end id path content data w :
  open_files w !! id =
    Some {| of_path := path; of_append := false;
            of_pos := String.length content |} →
  files (fs w) !! path = Some content →
  file_write id data w =
  (Returns tt,
   set_open_files
     (<[id := {| of_path := path; of_append := false;
                 of_pos := (String.length content + String.length data)%nat |}]>
        (open_files w))
     (set_fs {| dirs := dirs (fs w);
                files := <[path := content ++ data]> (files (fs w)) |} w)).
Proof.
  intros Hopen Hfile. unfold file_write. rewrite Hopen. simpl.
  rewrite Hfile. simpl. now rewrite write_at_end.
Qed.

Lemma level_enabled (lvl : Level) :
  (level_no lvl >=? level_no DEBUG) = true.
Proof. now destruct lvl. Qed.

(** Whatever the handlers, a record only ever adds text to the two
    standard streams, and the registry is left alone. *)
Lemma call_each_streams hs r w :
  ∃ w', call_each hs r w = (Returns tt, w')
        ∧ sys_stderr w' = sys_stderr w ++ stream_texts Stderr hs r
        ∧ sys_stdout w' = sys_stdout w ++ stream_texts Stdout hs r
        ∧ loggerDict w' = loggerDict w ∧ root w' = root w.
Proof.
  revert w. induction hs as [|h hs IH]; intros w.
  - exists w. simpl. rewrite !append_nil_r. auto.
  - assert (∃ w1, (if level_no (rec_level r) >=? h_level h then emit h r
                   else mret tt) w = (Returns tt, w1)
                  ∧ sys_stderr w1 = sys_stderr w ++ stream_text Stderr h r
                  ∧ sys_stdout w1 = sys_stdout w ++ stream_text Stdout h r
                  ∧ loggerDict w1 = loggerDict w ∧ root w1 = root w)
      as (w1 & Hrun & Herr & Hout & Hdict & Hroot).
    { unfold stream_text, emit.
      destruct (format _ r) as [msg|], (h_target h) as [[]|path mode enc],
        (level_no (rec_level r) >=? h_level h);
        try (eexists; split; [reflexivity|];
             simpl; rewrite ?append_nil_r; auto).
      all: unfold file_write; destruct (open_files w !! h_id h);
        eexists; (split; [reflexivity|]); simpl; rewrite ?append_nil_r; auto. }
    destruct (IH w1) as (w' & Hrest & Herr' & Hout' & Hdict' & Hroot').
    exists w'. cbn [call_each stream_texts].
    rewrite (bind_returns _ _ _ _ _ Hrun), Hrest.
    rewrite Herr', Hout', Herr, Hout, !append_assoc.
    repeat split; congruence.
Qed.

(** *** The chain of loggers a record travels *)

Lemma parent_ext w w' name :
  loggerDict w' = loggerDict w → parent w' name = parent w name.
Proof. intros H. unfold parent. destruct w, w'; simpl in *. now subst. Qed.

Lemma deref_ext w w' ref :
  loggerDict w' = loggerDict w → root w' = root w →
  deref w' ref = deref w ref.
Proof. intros Hd Hr. destruct ref; simpl; congruence. Qed.

Lemma chain_ext fuel w w' ref :
  loggerDict w' = loggerDict w → root w' = root w →
  chain fuel w' ref = chain fuel w ref.
Proof.
  intros Hd Hr. revert ref.
  induction fuel as [|fuel IH]; intros [|name]; simpl;
    rewrite ?Hd, ?Hr; try reflexivity.
  rewrite (parent_ext w w') by assumption. now rewrite IH.
Qed.

Lemma ancestry_ext w w' ref :
  loggerDict w' = loggerDict w → root w' = root w →
  ancestry w' ref = ancestry w ref.
Proof.
  intros Hd Hr. unfold ancestry.
  rewrite (deref_ext w w') by assumption. now apply chain_ext.
Qed.

Lemma getEffectiveLevel_ext w w' ref :
  loggerDict w' = loggerDict w → root w' = root w →
  getEffectiveLevel w' ref = getEffectiveLevel w ref.
Proof.
  intros Hd Hr. unfold getEffectiveLevel. now rewrite (ancestry_ext w w').
Qed.

(** The chain starts at the logger itself. *)
Lemma ancestry_head w ref :
  ∃ above, ancestry w ref = deref w ref :: above.
Proof.
  unfold ancestry.
  destruct ref as [|name], (String.length _); simpl; eauto.
Qed.

Lemma effective_level_own w ref :
  l_level (deref w ref) ≠ NOTSET →
  getEffectiveLevel w ref = l_level (deref w ref).
Proof.
  intros Hset. unfold getEffectiveLevel.
  destruct (ancestry_head w ref) as [above ->].
  rewrite filter_cons.
  now rewrite decide_True by (apply bool_decide_pack; assumption).
Qed.

(** A logger that holds a handler never falls back on
    [lastResort]. *)
Lemma callHandlers_own w ref r :
  l_handlers (deref w ref) ≠ [] →
  callHandlers ref r w = call_each (reached (ancestry w ref)) r w.
Proof.
  intros Hown. unfold callHandlers.
  destruct (ancestry_head w ref) as [above Habove].
  destruct (reached (ancestry w ref)) eqn:E; [|reflexivity].
  rewrite Habove in E. simpl in E.
  apply app_eq_nil in E as [E _]. contradiction.
Qed.

(** Once the level test passes, a logging call is the visit of the
    handlers the chain reaches. *)
Lemma log_run ref lvl msg exc stamp w :
  getEffectiveLevel w ref = level_no DEBUG →
  reached (ancestry w ref) ≠ [] →
  log ref lvl msg exc stamp w =
  call_each (reached (ancestry w ref))
    (record_of (l_name (deref w ref)) lvl msg exc stamp) w.
Proof.
  intros Hlevel Hreach. unfold log, isEnabledFor.
  rewrite Hlevel, level_enabled. unfold callHandlers.
  now destruct (reached (ancestry w ref)).
Qed.

(** One logging call through the two sinks of [app_logger]. *)
Lemma log_step ref name id content lvl msg exc stamp w :
  sinks_ready w ref name id content →
  let r := record_of name lvl msg exc stamp in
  log ref lvl msg exc stamp w = (Returns tt, logged id content r w)
  ∧ sinks_ready (logged id content r w) ref name id (content ++ file_text r).
Proof.
  intros (Hname & Hreach & Hlevel & Hopen & Hfile) r. split.
  - rewrite log_run by (assumption || now rewrite Hreach).
    rewrite Hreach, Hname. fold r. cbn [call_each].
    rewrite !level_enabled.
    erewrite bind_returns.
    2:{ rewrite emit_file. now apply (file_write_end _ "logs/app.log" content). }
    erewrite bind_returns; [|apply emit_console].
    rewrite mret_run. reflexivity.
  - unfold sinks_ready.
    rewrite (deref_ext w), (ancestry_ext w), (getEffectiveLevel_ext w)
      by reflexivity.
    repeat split; try assumption.
    + unfold logged; simpl. rewrite lookup_insert_eq.
      now rewrite length_append.
    + unfold logged; simpl. now rewrite lookup_insert_eq.
Qed.

(** *** When the log file cannot be opened *)

(** The world [app_logger] leaves when the constructor of the file
    handler raises: the logger exists at level DEBUG, one identity is
    spent, nothing else has changed. *)
Lemma app_logger_raises self w e :
  FileHandler "logs/app.log" ModeW "utf-8"
    (store (ref_of w (log_name self))
       (Sinks.leveled (deref w (ref_of w (log_name self)))) w)
  = (Raises e,
     set_next_id (S (next_id w))
       (store (ref_of w (log_name self))
          (Sinks.leveled (deref w (ref_of w (log_name self)))) w)) →
  app_logger self w =
  (Raises e, failed_app_logger (log_name self) w).
Proof.
  intros Hopen. unfold app_logger, failed_app_logger.
  rewrite (bind_returns _ _ _ _ _ (getLogger_run _ _)).
  unfold setLevel.
  rewrite (bind_returns _ _ _ _ _ (update_run _ _ _)).
  rewrite deref_store, store_store.
  now rewrite (bind_raises _ _ _ _ _ Hopen).
Qed.

Lemma app_logger_missing self w :
  dirs (fs w) !! "logs" = None →
  app_logger self w =
  (Raises (FileNotFoundError "logs/app.log"),
   failed_app_logger (log_name self) w).
Proof.
  intros Hdir. apply app_logger_raises.
  rewrite FileHandler_missing by now rewrite fs_store.
  now rewrite next_id_store.
Qed.

Lemma app_logger_denied self w :
  dirs (fs w) !! "logs" = Some false →
  app_logger self w =
  (Raises (PermissionError "logs/app.log"),
   failed_app_logger (log_name self) w).
Proof.
  intros Hdir. apply app_logger_raises.
  rewrite FileHandler_denied by now rewrite fs_store.
  now rewrite next_id_store.
Qed.

(** A run of [app_logger] that returns went through a writable
    [logs/]. *)
Lemma app_logger_returns_inv self w ref w' :
  app_logger self w = (Returns ref, w') →
  dirs (fs w) !! "logs" = Some true.
Proof.
  intros Hrun. destruct (dirs (fs w) !! "logs") as [[]|] eqn:Hdir.
  - reflexivity.
  - rewrite app_logger_denied in Hrun by assumption. discriminate.
  - rewrite app_logger_missing in Hrun by assumption. discriminate.
Qed.

(** *** The world after [app_logger] *)

Lemma ref_of_after name w :
  ref_of (after_app_logger name w) name = ref_of w name.
Proof.
  assert (l_name (root (after_app_logger name w)) = l_name (root w)) as H
    by (unfold after_app_logger; now destruct (ref_of w name)).
  unfold ref_of. now rewrite H.
Qed.

Lemma deref_after name w :
  deref (after_app_logger name w) (ref_of w name) =
  configured (next_id w) (deref w (ref_of w name)).
Proof. unfold after_app_logger. apply deref_store. Qed.

Lemma next_id_after name w :
  next_id (after_app_logger name w) = S (S (next_id w)).
Proof. unfold after_app_logger. now rewrite next_id_store. Qed.

Lemma dirs_after name w :
  dirs (fs (after_app_logger name w)) = dirs (fs w).
Proof. unfold after_app_logger. now rewrite fs_store. Qed.

Lemma files_after name w :
  files (fs (after_app_logger name w)) =
  <["logs/app.log" := ""]> (files (fs w)).
Proof. unfold after_app_logger. now rewrite fs_store. Qed.

Lemma streams_after name w :
  sys_stderr (after_app_logger name w) = sys_stderr w
  ∧ sys_stdout (after_app_logger name w) = sys_stdout w.
Proof. unfold after_app_logger. now destruct (ref_of w name). Qed.

(** The identities stay below the allocator, so [app_logger] can run
    again. *)
Lemma ids_allocated_after name w :
  ids_allocated w (ref_of w name) = true →
  ids_allocated (after_app_logger name w) (ref_of w name) = true.
Proof.
  unfold ids_allocated. intros Hids.
  rewrite deref_after, next_id_after. cbn [configured l_handlers].
  change [file_sink (next_id w); console_sink (S (next_id w))]
    with ([file_sink (next_id w)] ++ [console_sink (S (next_id w))])%list.
  rewrite app_assoc.
  apply allocated_snoc; [|reflexivity].
  now apply allocated_snoc.
Qed.

(** *** What handlers write on the standard streams *)

Lemma stream_texts_app s hs hs' r :
  stream_texts s (hs ++ hs') r = stream_texts s hs r ++ stream_texts s hs' r.
Proof.
  induction hs as [|h hs IH]; [reflexivity|].
  simpl. now rewrite IH, append_assoc.
Qed.

Lemma stream_text_file_sink s id r : stream_text s (file_sink id) r = "".
Proof.
  reflexivity.
Qed.

Lemma stream_text_console_sink id r :
  stream_text Stderr (console_sink id) r = console_text r
  ∧ stream_text Stdout (console_sink id) r = "".
Proof.
  unfold stream_text, console_text.
  change (default defaultFormatter (h_formatter (console_sink id)))
    with stream_formatter.
  cbn [console_sink h_target h_level].
  destruct (stream_format_total r) as [s Hs]. rewrite Hs.
  now rewrite level_enabled.
Qed.

End RunFacts.

(** ** The claims of the specification *)

Module Claims.
Import Str Time Logging Runtime Loggers Logconfig Sinks.
Import StrFacts FormatFacts RunFacts.

(** C1, refuted as stated: in a fresh process with a writable
    [logs/], two calls of [Log("test").app_logger()] leave the logger
    with two handlers on [logs/app.log] and two on standard error, and
    one warning then appears twice on the console. *)
Lemma app_logger_twice_duplicates :
  ∃ ref w2 w3,
    app_logger_twice "test" (fresh_process with_logs_dir) = (Returns ref, w2)
    ∧ map h_target (l_handlers (deref w2 ref)) =
        [ToFile "logs/app.log" ModeW "utf-8"; ToStream Stderr;
         ToFile "logs/app.log" ModeW "utf-8"; ToStream Stderr]
    ∧ ¬ no_duplicate_handlers (deref w2 ref)
    ∧ warning ref "low disk" (noon, 7) w2 = (Returns tt, w3)
    ∧ sys_stderr w3 = console_text low_disk ++ console_text low_disk.
Proof.
  eexists _, _, _. split; [vm_compute; reflexivity|].
  split; [vm_compute; reflexivity|].
  split.
  - unfold no_duplicate_handlers. intros Hnodup.
    vm_compute in Hnodup.
    apply NoDup_cons in Hnodup as [Hnotin _].
    apply Hnotin. do 2 constructor.
  - split; vm_compute; reflexivity.
Qed.

(** C1, as the code has it: every call of [app_logger] that returns
    appends a new file handler and a new stream handler to the logger
    of its name, whatever the logger already holds. After two calls
    with one name the logger holds four more handlers than before, and
    a record logged through it is written on standard error by its
    earlier handlers and then twice more, once by each new stream
    handler. *)
Theorem app_logger_twice_appends (name : string) (w : World) :
  ids_allocated w (ref_of w name) = true →
  dirs (fs w) !! "logs" = Some true →
  ∃ w2,
    app_logger_twice name w = (Returns (ref_of w name), w2)
    ∧ l_handlers (deref w2 (ref_of w name)) =
        (l_handlers (deref w (ref_of w name))
         ++ [file_sink (next_id w); console_sink (S (next_id w));
             file_sink (S (S (next_id w)));
             console_sink (S (S (S (next_id w))))])%list
    ∧ sys_stderr w2 = sys_stderr w
    ∧ ∀ lvl msg stamp,
        let r := record_of (l_name (deref w (ref_of w name))) lvl msg None
                   stamp in
        ∃ w3 above,
          log (ref_of w name) lvl msg None stamp w2 = (Returns tt, w3)
          ∧ sys_stderr w3 =
              sys_stderr w
              ++ stream_texts Stderr (l_handlers (deref w (ref_of w name))) r
              ++ console_text r ++ console_text r ++ above.
Proof.
  intros Hids Hdir.
  set (ref := ref_of w name) in *.
  set (w1 := after_app_logger name w).
  exists (after_app_logger name w1).
  assert (app_logger_twice name w = (Returns ref, after_app_logger name w1))
    as Hrun.
  { unfold app_logger_twice.
    erewrite bind_returns; [|now apply app_logger_run].
    cbn [log_name]. fold w1.
    rewrite (app_logger_run {| log_name := name |} w1); cbn [log_name].
    - unfold w1. now rewrite ref_of_after.
    - unfold w1. rewrite ref_of_after. now apply ids_allocated_after.
    - unfold w1. now rewrite dirs_after. }
  assert (deref (after_app_logger name w1) ref =
          configured (S (S (next_id w))) (configured (next_id w) (deref w ref)))
    as Hderef.
  { replace ref with (ref_of w1 name) at 1
      by (unfold w1; apply ref_of_after).
    rewrite deref_after. unfold w1.
    rewrite ref_of_after, deref_after, next_id_after. reflexivity. }
  split; [exact Hrun|]. split.
  { rewrite Hderef. cbn [configured l_handlers]. now rewrite <- app_assoc. }
  split.
  { rewrite (proj1 (streams_after name w1)). apply streams_after. }
  intros lvl msg stamp r.
  set (w2 := after_app_logger name w1) in *.
  destruct (ancestry_head w2 ref) as [above Habove].
  assert (l_name (deref w2 ref) = l_name (deref w ref)) as Hname
    by now rewrite Hderef.
  destruct (call_each_streams (reached (ancestry w2 ref)) r w2)
    as (w3 & Hcall & Herr & _).
  exists w3,
    (stream_texts Stderr
       (if l_propagate (deref w ref) then reached above else []) r).
  split.
  - rewrite log_run; [rewrite Hname; exact Hcall| |].
    + rewrite effective_level_own; rewrite Hderef; [reflexivity|].
      intros Hzero; discriminate Hzero.
    + rewrite Habove, Hderef. cbn [reached configured l_handlers].
      now destruct (l_handlers (deref w ref)).
  - rewrite Herr, Habove. cbn [reached]. rewrite Hderef.
    cbn [configured l_handlers l_propagate].
    rewrite <- app_assoc, !stream_texts_app.
    cbn [stream_texts app].
    rewrite !stream_text_file_sink.
    rewrite (proj1 (stream_text_console_sink (S (next_id w)) r)).
    rewrite (proj1 (stream_text_console_sink (S (S (S (next_id w)))) r)).
    unfold w2. rewrite (proj1 (streams_after name w1)).
    unfold w1. rewrite (proj1 (streams_after name w)).
    rewrite !append_nil_l, !append_nil_r, !append_assoc. reflexivity.
Qed.

(** The theorem at work in a fresh process, for the name [test]. *)
Lemma app_logger_twice_appends_witness :
  ids_allocated (fresh_process with_logs_dir) (NamedLogger "test") = true
  ∧ dirs (fs (fresh_process with_logs_dir)) !! "logs" = Some true
  ∧ ∃ w2,
      app_logger_twice "test" (fresh_process with_logs_dir)
      = (Returns (NamedLogger "test"), w2)
      ∧ l_handlers (deref w2 (NamedLogger "test"))
        = [file_sink 0; console_sink 1; file_sink 2; console_sink 3].
Proof.
  split; [reflexivity|]. split; [reflexivity|].
  destruct (app_logger_twice_appends "test" (fresh_process with_logs_dir))
    as (w2 & Hrun & Hhandlers & _); [reflexivity | reflexivity |].
  exists w2. split; [exact Hrun | exact Hhandlers].
Defined.

(** C7: executed as a script ([__name__] is ["__main__"]) in a fresh
    process whose [logs/] is writable, the module makes six records
    and no more: one at each of DEBUG, INFO, WARNING, ERROR and
    CRITICAL, in that order, then the one of [logger.exception] for
    the [ZeroDivisionError] raised by [1/0], carrying the traceback.
    Each is written once to standard error and once to
    [logs/app.log], nothing goes to standard output, and the module
    ends without raising. Imported under any other name, the module
    does none of this. *)
Theorem main_block_emits (x : FS) (clock : nat → Timestamp)
    (frames : string) :
  dirs x !! "logs" = Some true →
  (∃ w',
     module_body "__main__" clock frames (fresh_process x) = (Returns tt, w')
     ∧ sys_stderr w' = concat_map console_text (sample_records clock frames)
     ∧ files (fs w') !! "logs/app.log" =
         Some (concat_map file_text (sample_records clock frames))
     ∧ sys_stdout w' = "")
  ∧ ∀ name w, name ≠ "__main__" →
      module_body name clock frames w = (Returns tt, w).
Proof.
  intros Hdir. split.
  2:{ intros name w Hname. unfold module_body.
      apply String.eqb_neq in Hname. now rewrite Hname. }
  unfold module_body. change (String.eqb "__main__" "__main__") with true.
  cbv iota. unfold main_block.
  set (w0 := fresh_process x).
  set (ref := NamedLogger "__main__").
  assert (app_logger (__init__ "__main__" (Some "__main__")) w0
          = (Returns ref, after_app_logger "__main__" w0)) as Hrun
    by (now apply app_logger_run).
  assert (sinks_ready (after_app_logger "__main__" w0) ref "__main__" 0 "")
    as Hready.
  { unfold sinks_ready.
    assert (deref (after_app_logger "__main__" w0) ref
            = configured 0 (new_logger "__main__")) as Hderef
      by apply (deref_after "__main__" w0).
    split; [|split; [|split; [|split]]].
    - now rewrite Hderef.
    - reflexivity.
    - rewrite effective_level_own; rewrite Hderef; [reflexivity|].
      intros Hzero; discriminate Hzero.
    - apply lookup_insert_eq.
    - rewrite files_after. apply lookup_insert_eq. }
  rewrite (bind_returns _ _ _ _ _ Hrun).
  unfold debug, info, warning, error, critical, exception.
  repeat match goal with
  | Hr : sinks_ready ?w ref _ _ _ |- context [log ref ?lvl ?msg ?exc ?t ≫= _] =>
      let Hlog := fresh "Hlog" in
      let Hnext := fresh "Hready" in
      destruct (log_step ref _ _ _ lvl msg exc t w Hr) as [Hlog Hnext];
      rewrite (bind_returns _ _ _ _ _ Hlog); clear Hr Hlog
  end.
  unfold try_except. cbn [truediv Z.eqb raise is_Exception].
  match goal with
  | Hr : sinks_ready ?w ref _ _ _ |- context [log ref ?lvl ?msg ?exc ?t ?w] =>
      destruct (log_step ref _ _ _ lvl msg exc t w Hr) as [Hlog Hlast];
      rewrite Hlog; clear Hr Hlog
  end.
  eexists. split; [reflexivity|].
  destruct Hlast as (_ & _ & _ & _ & Hfile).
  split; [|split].
  - cbn [logged sys_stderr set_stderr set_open_files set_fs].
    rewrite (proj1 (streams_after "__main__" w0)).
    cbn [w0 fresh_process sys_stderr concat_map sample_records].
    cbn [exc_info_of].
    rewrite !append_assoc, append_nil_r. reflexivity.
  - rewrite Hfile. cbn [concat_map sample_records exc_info_of].
    rewrite !append_assoc, append_nil_r. reflexivity.
  - cbn [logged sys_stdout set_stderr set_open_files set_fs].
    apply (proj2 (streams_after "__main__" w0)).
Qed.

(** The theorem at work: the log file and the visible console text of
    one run of the script. *)
Lemma main_block_emits_witness :
  dirs with_logs_dir !! "logs" = Some true
  ∧ ∃ w',
      module_body "__main__" sample_clock sample_frames
        (fresh_process with_logs_dir) = (Returns tt, w')
      ∧ files (fs w') !! "logs/app.log" = Some
"DEBUG:    2026-11-03 12:00:05,000 - __main__ - debug message
INFO:    2026-11-03 12:00:05,001 - __main__ - info message
WARNING:    2026-11-03 12:00:05,002 - __main__ - warning message
ERROR:    2026-11-03 12:00:05,003 - __main__ - error message
CRITICAL:    2026-11-03 12:00:05,004 - __main__ - critical message
ERROR:    2026-11-03 12:00:05,005 - __main__ - unknown error
Traceback (most recent call last):
  File logconfig.py, line 72, in <module>
    1/0
ZeroDivisionError: division by zero
"
      ∧ strip_ansi (sys_stderr w') =
"DEBUG:    [2026/Nov/03 12:00:05,000] - {{__main__}} @debug message
INFO:    [2026/Nov/03 12:00:05,001] - {{__main__}} @info message
WARNING:    [2026/Nov/03 12:00:05,002] - {{__main__}} @warning message
ERROR:    [2026/Nov/03 12:00:05,003] - {{__main__}} @error message
CRITICAL:    [2026/Nov/03 12:00:05,004] - {{__main__}} @critical message
ERROR:    [2026/Nov/03 12:00:05,005] - {{__main__}} @unknown error
Traceback (most recent call last):
  File logconfig.py, line 72, in <module>
    1/0
ZeroDivisionError: division by zero
".
Proof.
  split; [reflexivity|].
  destruct (main_block_emits with_logs_dir sample_clock sample_frames)
    as [(w' & Hrun & Herr & Hfile & _) _]; [reflexivity|].
  exists w'. split; [exact Hrun|]. split.
  - rewrite Hfile. vm_compute. reflexivity.
  - rewrite Herr. vm_compute. reflexivity.
Defined.

(** C2, on the code: the console sink renders the time of every record
    as [YYYY/Mon/DD HH:MM:SS]; the file sink renders it as the library
    default [YYYY-MM-DD HH:MM:SS,mmm], since [file_formatter] is built
    without the [datefmt] that [stream_formatter] is given. For a
    warning made on 3 November 2026 at 12:00:05 and 7 ms the two sinks
    write [2026/Nov/03 12:00:05] and [2026-11-03 12:00:05,007]. *)
Theorem file_timestamp_differs :
  (∀ r, formatTime stream_formatter r = spec_timestamp (rec_time r))
  ∧ (∀ r, formatTime file_formatter r
          = strftime default_time_format (rec_time r) ++ ","
              ++ pad_zero 3 (rec_msecs r))
  ∧ formatTime stream_formatter low_disk = "2026/Nov/03 12:00:05"
  ∧ formatTime file_formatter low_disk = "2026-11-03 12:00:05,007"
  ∧ formatTime file_formatter low_disk ≠ spec_timestamp (rec_time low_disk).
Proof.
  split; [exact stream_formatTime|].
  split; [reflexivity|].
  repeat split; try reflexivity. discriminate.
Qed.

(** C3: a run of [app_logger] that returns has appended to the
    logger a handler on the relative path [logs/app.log], opened in
    mode [w] (the file is empty once the call returns) with encoding
    utf-8, of level DEBUG, which renders a record that carries no
    exception as [LEVEL:    TIMESTAMP - LOGGER_NAME - MESSAGE]. *)
Theorem app_logger_file_sink (self : Log) (w w' : World) (ref : LogRef) :
  ids_allocated w (ref_of w (log_name self)) = true →
  app_logger self w = (Returns ref, w') →
  ∃ h rest,
    l_handlers (deref w' ref) = (l_handlers (deref w ref) ++ h :: rest)%list
    ∧ h_target h = ToFile "logs/app.log" ModeW "utf-8"
    ∧ h_level h = level_no DEBUG
    ∧ files (fs w') !! "logs/app.log" = Some ""
    ∧ ∀ r, rec_exc_info r = None →
        format (default defaultFormatter (h_formatter h)) r =
        Some (spec_file_layout (getLevelName (rec_level r))
                (formatTime file_formatter r) (rec_name r) (rec_msg r)).
Proof.
  intros Hids Hrun.
  pose proof (app_logger_returns_inv _ _ _ _ Hrun) as Hdir.
  rewrite app_logger_run in Hrun by assumption.
  injection Hrun as <- <-.
  exists (file_sink (next_id w)), [console_sink (S (next_id w))].
  rewrite deref_after, files_after, lookup_insert_eq.
  repeat split; try reflexivity.
  intros r Hexc. now apply file_format.
Qed.

(** The theorem at work: the first call in a fresh process, and the
    line of a warning. *)
Lemma app_logger_file_sink_witness :
  ids_allocated (fresh_process with_logs_dir) (NamedLogger "test") = true
  ∧ app_logger test_log (fresh_process with_logs_dir)
    = (Returns (NamedLogger "test"),
       after_app_logger "test" (fresh_process with_logs_dir))
  ∧ ∃ h,
      h_target h = ToFile "logs/app.log" ModeW "utf-8"
      ∧ h_level h = 10
      ∧ format (default defaultFormatter (h_formatter h)) low_disk
        = Some "WARNING:    2026-11-03 12:00:05,007 - test - low disk".
Proof.
  assert (app_logger test_log (fresh_process with_logs_dir)
          = (Returns (NamedLogger "test"),
             after_app_logger "test" (fresh_process with_logs_dir))) as Hrun
    by (vm_compute; reflexivity).
  split; [reflexivity|]. split; [exact Hrun|].
  destruct (app_logger_file_sink test_log (fresh_process with_logs_dir)
              (after_app_logger "test" (fresh_process with_logs_dir))
              (NamedLogger "test"))
    as (h & rest & _ & Htarget & Hlevel & _ & Hformat);
    [reflexivity | exact Hrun |].
  exists h. split; [exact Htarget|]. split; [exact Hlevel|].
  rewrite (Hformat low_disk); reflexivity.
Defined.

(** C4, refuted as stated: the visible text of the console line of a
    warning has the logger name between doubled braces and no blank
    after [@], where the specification writes single braces and a
    blank. *)
Lemma console_layout_differs :
  ∃ text,
    format stream_formatter low_disk = Some text
    ∧ strip_ansi text
      = "WARNING:    [2026/Nov/03 12:00:05,007] - {{test}} @low disk"
    ∧ spec_console_layout "WARNING" "2026/Nov/03 12:00:05" "007" "test"
        "low disk"
      = "WARNING:    [2026/Nov/03 12:00:05,007] - {test} @ low disk"
    ∧ strip_ansi text
      ≠ spec_console_layout "WARNING" "2026/Nov/03 12:00:05" "007" "test"
          "low disk".
Proof.
  eexists. split; [vm_compute; reflexivity|].
  repeat split; try reflexivity. discriminate.
Qed.

(** C4, as the code has it: the console sink renders a record that
    carries no exception as
    [LEVEL:    [TIMESTAMP,MSEC] - {{LOGGER_NAME}} @MESSAGE], where the
    colour code of the level stands before LEVEL and before MESSAGE,
    the reset code after LEVEL and at the end of the line, MSEC
    (three digits) is wrapped in [ESC[1;90m] and [ESC[0m], and
    LOGGER_NAME in [ESC[38;2;235;9;220m] and [ESC[0m]. *)
Theorem console_sink_layout (r : LogRecord) :
  rec_exc_info r = None →
  format stream_formatter r =
  Some (reset_terminated
          (color_code (rec_level r) ++ getLevelName (rec_level r)
             ++ Colorlog.esc [0] ++ ":    ["
             ++ spec_timestamp (rec_time r) ++ ","
             ++ Colorlog.esc [1; 90] ++ pad_zero 3 (rec_msecs r)
             ++ Colorlog.esc [0] ++ "] - {{"
             ++ Colorlog.esc [38; 2; 235; 9; 220] ++ rec_name r
             ++ Colorlog.esc [0] ++ "}} @"
             ++ color_code (rec_level r) ++ rec_msg r)).
Proof. intros Hexc. now rewrite stream_format. Qed.

(** The theorem at work on a warning: the visible text of its line. *)
Lemma console_sink_layout_witness :
  rec_exc_info low_disk = None
  ∧ ∃ text,
      format stream_formatter low_disk = Some text
      ∧ strip_ansi text
        = "WARNING:    [2026/Nov/03 12:00:05,007] - {{test}} @low disk".
Proof.
  split; [reflexivity|]. eexists. split.
  - apply (console_sink_layout low_disk). reflexivity.
  - vm_compute. reflexivity.
Defined.

(** C5, refuted as stated: [Log()] called from a module named [app],
    with [logconfig] imported as [core.logconfig], is named after
    [core.logconfig]. *)
Lemma default_log_name_not_caller :
  log_name (Log_at "core.logconfig" {| caller_module := "app" |} None)
  ≠ caller_module {| caller_module := "app" |}.
Proof. discriminate. Qed.

(** C5, as the code has it: when [log_name] is not given, it is the
    [__name__] of the module that defines [Log] (the default is
    evaluated where the [def] stands), whichever module makes the
    call; a [log_name] that is given is kept. *)
Theorem default_log_name_is_defining_module (defining_module : string)
    (site : CallSite) :
  log_name (Log_at defining_module site None) = defining_module
  ∧ ∀ name, log_name (Log_at defining_module site (Some name)) = name.
Proof. split; reflexivity. Qed.

(** C6: the console formatter colours by [log_colors], whose keys are
    exactly the five level names, and which sends DEBUG to cyan, INFO
    to green, WARNING to yellow, ERROR to red and CRITICAL to bold
    red; the codes written are those of these colours. *)
Theorem console_color_mapping :
  style stream_formatter = ColoredStyle log_colors true
  ∧ map fst log_colors
    = map getLevelName [DEBUG; INFO; WARNING; ERROR; CRITICAL]
  ∧ ∀ l : Level,
      Colorlog.lookup_str (getLevelName l) log_colors
      = Some (severity_color l)
      ∧ Colorlog.get_escape_code log_colors (getLevelName l)
        = Some (color_code l).
Proof. repeat split; destruct l; reflexivity. Qed.

(** C8: when [logs/] is missing, [app_logger] raises
    [FileNotFoundError]; when [logs/] is not writable, it raises
    [PermissionError]. Both are [OSError]s; nothing in [app_logger]
    catches them, so whatever the caller does with the result is not
    run, no logger is returned and no handler has been attached. *)
Theorem app_logger_open_failure (self : Log) (w : World) :
  dirs (fs w) !! "logs" = None ∨ dirs (fs w) !! "logs" = Some false →
  ∃ e w',
    app_logger self w = (Raises e, w')
    ∧ is_OSError e = true
    ∧ e = match dirs (fs w) !! "logs" with
          | Some _ => PermissionError "logs/app.log"
          | None => FileNotFoundError "logs/app.log"
          end
    ∧ (∀ (A : Type) (k : LogRef → M A),
         (app_logger self ≫= k) w = (Raises e, w'))
    ∧ l_handlers (deref w' (ref_of w (log_name self)))
      = l_handlers (deref w (ref_of w (log_name self))).
Proof.
  intros [Hdir|Hdir]; rewrite Hdir.
  - exists (FileNotFoundError "logs/app.log"),
           (failed_app_logger (log_name self) w).
    pose proof (app_logger_missing self w Hdir) as Hrun.
    repeat split; try assumption.
    + intros A k. now apply bind_raises.
    + unfold failed_app_logger. now rewrite deref_set_next_id, deref_store.
  - exists (PermissionError "logs/app.log"),
           (failed_app_logger (log_name self) w).
    pose proof (app_logger_denied self w Hdir) as Hrun.
    repeat split; try assumption.
    + intros A k. now apply bind_raises.
    + unfold failed_app_logger. now rewrite deref_set_next_id, deref_store.
Qed.

(** The theorem at work: a process started where [logs/] is missing,
    and one where it is read-only. *)
Lemma app_logger_open_failure_witness :
  dirs (fs (fresh_process without_logs_dir)) !! "logs" = None
  ∧ dirs (fs (fresh_process readonly_logs_dir)) !! "logs" = Some false
  ∧ (∃ w', app_logger test_log (fresh_process without_logs_dir)
           = (Raises (FileNotFoundError "logs/app.log"), w'))
  ∧ (∃ w', app_logger test_log (fresh_process readonly_logs_dir)
           = (Raises (PermissionError "logs/app.log"), w')).
Proof.
  split; [reflexivity|]. split; [reflexivity|]. split.
  - destruct (app_logger_open_failure test_log
                (fresh_process without_logs_dir))
      as (e & w' & Hrun & _ & He & _); [left; reflexivity|].
    exists w'. rewrite Hrun, He. reflexivity.
  - destruct (app_logger_open_failure test_log
                (fresh_process readonly_logs_dir))
      as (e & w' & Hrun & _ & He & _); [right; reflexivity|].
    exists w'. rewrite Hrun, He. reflexivity.
Defined.

(** C9: [StreamHandler()] without a stream is bound to standard
    error, and the last handler a returning run of [app_logger]
    attaches is such a handler: emitting any record through it, in
    any world, appends the console line to standard error and changes
    nothing else, standard output included. *)
Theorem console_sink_stderr (self : Log) (w w' : World) (ref : LogRef) :
  ids_allocated w (ref_of w (log_name self)) = true →
  app_logger self w = (Returns ref, w') →
  (∀ w0, ∃ h w1, StreamHandler None w0 = (Returns h, w1)
                 ∧ h_target h = ToStream Stderr)
  ∧ ∃ h,
      last (l_handlers (deref w' ref)) = Some h
      ∧ h_target h = ToStream Stderr
      ∧ ∀ r w0,
          emit h r w0
          = (Returns tt, set_stderr (sys_stderr w0 ++ console_text r) w0)
          ∧ sys_stdout (emit h r w0).2 = sys_stdout w0.
Proof.
  intros Hids Hrun. split.
  { intros w0. eexists _, _. split; reflexivity. }
  pose proof (app_logger_returns_inv _ _ _ _ Hrun) as Hdir.
  rewrite app_logger_run in Hrun by assumption.
  injection Hrun as <- <-.
  exists (console_sink (S (next_id w))).
  rewrite deref_after. cbn [configured l_handlers].
  split; [|split; [reflexivity|]].
  - change [file_sink (next_id w); console_sink (S (next_id w))]
      with ([file_sink (next_id w)] ++ [console_sink (S (next_id w))])%list.
    rewrite app_assoc. apply last_snoc.
  - intros r w0. rewrite emit_console. split; reflexivity.
Qed.

(** The theorem at work: a warning through the console sink of the
    first call in a fresh process. *)
Lemma console_sink_stderr_witness :
  ids_allocated (fresh_process with_logs_dir) (NamedLogger "test") = true
  ∧ app_logger test_log (fresh_process with_logs_dir)
    = (Returns (NamedLogger "test"),
       after_app_logger "test" (fresh_process with_logs_dir))
  ∧ ∃ h,
      h_target h = ToStream Stderr
      ∧ sys_stderr (emit h low_disk (fresh_process with_logs_dir)).2
        = console_text low_disk
      ∧ sys_stdout (emit h low_disk (fresh_process with_logs_dir)).2 = "".
Proof.
  assert (app_logger test_log (fresh_process with_logs_dir)
          = (Returns (NamedLogger "test"),
             after_app_logger "test" (fresh_process with_logs_dir))) as Hrun
    by (vm_compute; reflexivity).
  split; [reflexivity|]. split; [exact Hrun|].
  destruct (console_sink_stderr test_log (fresh_process with_logs_dir)
              (after_app_logger "test" (fresh_process with_logs_dir))
              (NamedLogger "test"))
    as [_ (h & _ & Htarget & Hemit)]; [reflexivity | exact Hrun |].
  exists h. split; [exact Htarget|].
  destruct (Hemit low_disk (fresh_process with_logs_dir)) as [Hrun' Hout].
  split; [|exact Hout]. rewrite Hrun'. reflexivity.
Defined.

(** C10: whatever name the module runs under, its body calls
    [banner()], which prints exactly two things on the console. The
    first is the centred logo: the six lines of the drawing below and
    two line feeds, in bold magenta. The second is the centred table
    titled [🚀 DEVELOPER INFO], with lines between the rows, whose two
    columns are PLATFORM and USERNAME / URL and whose rows are GITHUB,
    GITLAB, LINKEDIN and WEBSITE in that order with their fixed second
    cells. [logo()] alone prints the first of the two. *)
Theorem dev_module_prints_banner (__name__ : string) :
  Rich.printed (Dev.module_body __name__)
  = [Rich.AlignCenter
       (Rich.OfText {| Rich.plain :=
" _____           _ _
|  __ \         | | |
| |__) |__ _  __| | |__   ___
|  _  // _` |/ _` | '_ \ / _ \
| | \ \ (_| | (_| | | | |  __/
|_|  \_\__,_|\__,_|_| |_|\___| •••

";
                       Rich.text_style := "bold magenta" |});
     Rich.AlignCenter
       (Rich.OfTable
          {| Rich.title := Some "🚀 DEVELOPER INFO";
             Rich.show_lines := true;
             Rich.title_style := Some "bold underline yellow on black";
             Rich.columns :=
               [{| Rich.header := "PLATFORM"; Rich.justify := "center";
                   Rich.column_style := "cyan"; Rich.no_wrap := true |};
                {| Rich.header := "USERNAME / URL"; Rich.justify := "left";
                   Rich.column_style := "magenta"; Rich.no_wrap := false |}];
             Rich.rows :=
               [["GITHUB"; "Akhil-Biswas"];
                ["GITLAB"; "Akhil-Biswas"];
                ["LINKEDIN"; "akhilbiswas-radhe"];
                ["WEBSITE"; "akhil-biswas.netlify.app"]] |})]
  ∧ Rich.printed (Dev.logo Dev.console)
    = [Rich.AlignCenter
         (Rich.OfText {| Rich.plain :=
" _____           _ _
|  __ \         | | |
| |__) |__ _  __| | |__   ___
|  _  // _` |/ _` | '_ \ / _ \
| | \ \ (_| | (_| | | | |  __/
|_|  \_\__,_|\__,_|_| |_|\___| •••

";
                         Rich.text_style := "bold magenta" |})].
Proof. split; reflexivity. Qed.
End Claims.

(** ** The chain of a logger that stands alone in the registry *)

Module ChainFacts.
Import Str Time Logging Runtime Loggers Logconfig Sinks More.
Import StrFacts FormatFacts RunFacts.

Lemma rfind_dot_bounds (s : string) (i limit j : nat) :
  rfind_dot i limit s = Some j → (i <= j < limit)%nat.
Proof.
  revert i. induction s as [|c s IH]; intros i; simpl; [discriminate|].
  destruct (limit <=? i)%nat eqn:Hlim; [discriminate|].
  apply Nat.leb_gt in Hlim.
  destruct (rfind_dot (S i) limit s) as [j'|] eqn:Hrest.
  - intros [= <-]. specialize (IH _ Hrest). lia.
  - destruct (Ascii.eqb c "."); [|discriminate]. intros [= <-]. lia.
Qed.

Lemma length_substring_prefix (m : nat) (s : string) :
  (m <= String.length s)%nat → String.length (String.substring 0 m s) = m.
Proof.
  revert m. induction s as [|c s IH]; intros [|m] Hm; simpl in *;
    try reflexivity; try lia.
  rewrite IH; [reflexivity | lia].
Qed.

(** Every prefix [Manager._fixupParents] tries is strictly shorter than
    the name. *)
Lemma parent_candidates_shorter (name : string) (fuel : nat) (i : option nat)
    (c : string) :
  (∀ j, i = Some j → (j < String.length name)%nat) →
  In c (parent_candidates fuel name i) →
  (String.length c < String.length name)%nat.
Proof.
  revert i. induction fuel as [|fuel IH]; intros i Hi; simpl; [tauto|].
  destruct i as [[|k]|]; simpl; try tauto.
  specialize (Hi (S k) eq_refl).
  intros [<- | Hin].
  - rewrite length_substring_prefix; lia.
  - apply (IH (rfind_dot 0 k name)); [|exact Hin].
    intros j Hj. apply rfind_dot_bounds in Hj. lia.
Qed.

(** A logger whose registry holds no shorter name hangs directly under
    the root. *)
Lemma parent_root (w : World) (name : string) :
  (∀ c, (String.length c < String.length name)%nat →
        loggerDict w !! c = None) →
  parent w name = RootLogger.
Proof.
  intros Halone. unfold parent.
  assert (∀ c, In c (parent_candidates (String.length name) name
                       (rfind_dot 0 (String.length name) name)) →
               (String.length c < String.length name)%nat) as Hshort.
  { intros c. apply parent_candidates_shorter.
    intros j Hj. apply rfind_dot_bounds in Hj. lia. }
  induction (parent_candidates _ _ _) as [|c cs IH]; [reflexivity|].
  rewrite filter_cons.
  rewrite decide_False.
  - apply IH. intros c' Hc'. apply Hshort. now right.
  - intros Hsome. apply bool_decide_unpack in Hsome.
    rewrite Halone in Hsome; [now destruct Hsome|].
    apply Hshort. now left.
Qed.

(** The chain of such a logger is the logger and the root. *)
Lemma ancestry_alone (w : World) (name : string) :
  name ≠ "" →
  l_name (deref w (NamedLogger name)) = name →
  (∀ c, (String.length c < String.length name)%nat →
        loggerDict w !! c = None) →
  ancestry w (NamedLogger name) = [deref w (NamedLogger name); root w].
Proof.
  intros Hne Hname Halone. unfold ancestry. rewrite Hname.
  destruct name as [|c name]; [contradiction|].
  cbn [String.length chain].
  rewrite parent_root by assumption.
  now destruct (String.length name).
Qed.

Lemma singleton_alone (name : string) (l : Logger) (c : string) :
  (String.length c < String.length name)%nat →
  (<[name := l]> (∅ : gmap string Logger)) !! c = None.
Proof.
  intros Hlen. rewrite lookup_insert_ne; [apply lookup_empty|].
  intros ->. lia.
Qed.

(** *** The first configuration of a fresh process *)

Lemma open_files_after (name : string) (w : World) :
  open_files (after_app_logger name w)
  = <[next_id w := app_log]> (open_files w).
Proof. unfold after_app_logger. now destruct (ref_of w name). Qed.

Lemma ref_of_fresh (x : FS) (name : string) :
  ref_of (fresh_process x) name
  = if String.eqb name "" || String.eqb name "root" then RootLogger
    else NamedLogger name.
Proof. reflexivity. Qed.

Lemma fresh_ids (x : FS) (name : string) :
  ids_allocated (fresh_process x) (ref_of (fresh_process x) name) = true.
Proof.
  unfold ids_allocated. rewrite ref_of_fresh.
  destruct (_ || _); [reflexivity|].
  cbn [deref fresh_process loggerDict]. now rewrite lookup_empty.
Qed.

Lemma ready_after_first (x : FS) (name : string) :
  sinks_ready (after_app_logger name (fresh_process x))
    (ref_of (fresh_process x) name) (registered_name name) 0 "".
Proof.
  set (w0 := fresh_process x).
  pose proof (deref_after name w0) as Hderef.
  pose proof (ref_of_fresh x name) as Href. fold w0 in Href.
  unfold registered_name.
  destruct (String.eqb name "" || String.eqb name "root") eqn:Hroot;
    rewrite Href in *.
  - split; [|split; [|split; [|split]]].
    + now rewrite Hderef.
    + unfold ancestry. destruct (String.length _); cbn [chain reached];
        change (root (after_app_logger name w0))
          with (deref (after_app_logger name w0) RootLogger);
        now rewrite Hderef.
    + rewrite effective_level_own; rewrite Hderef; [reflexivity|].
      intros Hzero; discriminate Hzero.
    + rewrite open_files_after. apply lookup_insert_eq.
    + rewrite files_after. apply lookup_insert_eq.
  - apply orb_false_iff in Hroot as [Hempty _].
    apply String.eqb_neq in Hempty.
    assert (deref w0 (NamedLogger name) = new_logger name) as Hnew
      by (cbn [deref w0 fresh_process loggerDict]; now rewrite lookup_empty).
    rewrite Hnew in Hderef.
    split; [|split; [|split; [|split]]].
    + now rewrite Hderef.
    + rewrite ancestry_alone.
      * rewrite Hderef. unfold after_app_logger. rewrite Href. reflexivity.
      * assumption.
      * now rewrite Hderef.
      * unfold after_app_logger. rewrite Href, Hnew.
        cbn [store set_loggerDict loggerDict set_next_id set_open_files set_fs
             w0 fresh_process].
        apply singleton_alone.
    + rewrite effective_level_own; rewrite Hderef; [reflexivity|].
      intros Hzero; discriminate Hzero.
    + rewrite open_files_after. apply lookup_insert_eq.
    + rewrite files_after. apply lookup_insert_eq.
Qed.

(** *** A sequence of calls through the two sinks *)

Lemma log_all_ready ref name id calls : ∀ content w,
  sinks_ready w ref name id content →
  ∃ w',
    log_all ref calls w = (Returns tt, w')
    ∧ sinks_ready w' ref name id
        (content ++ concat_map file_text (records_of name calls))
    ∧ sys_stderr w'
      = sys_stderr w ++ concat_map console_text (records_of name calls)
    ∧ sys_stdout w' = sys_stdout w
    ∧ dirs (fs w') = dirs (fs w)
    ∧ loggerDict w' = loggerDict w
    ∧ root w' = root w.
Proof.
  induction calls as [|[[lvl msg] stamp] calls IH]; intros content w Hready.
  - exists w. cbn [log_all records_of map concat_map].
    rewrite !append_nil_r.
    split; [reflexivity|]. split; [exact Hready|]. repeat split.
  - destruct (log_step ref name id content lvl msg None stamp w Hready)
      as [Hlog Hnext].
    destruct (IH _ _ Hnext)
      as (w' & Hrest & Hready' & Herr & Hout & Hdirs & Hdict & Hroot).
    exists w'. cbn [log_all records_of map concat_map].
    rewrite (bind_returns _ _ _ _ _ Hlog), Hrest.
    rewrite <- append_assoc.
    split; [reflexivity|]. split; [exact Hready'|].
    rewrite Herr, Hout, Hdirs, Hdict, Hroot.
    cbn [logged sys_stderr sys_stdout set_stderr set_open_files set_fs fs
         dirs loggerDict root].
    now rewrite append_assoc.
Qed.

End ChainFacts.

(** ** Escape bytes in rendered text *)

Module TextFacts.
Import Str Time Logging Runtime Loggers Logconfig Sinks More.
Import StrFacts FormatFacts.

Lemma mentions_append (c : ascii) (s t : string) :
  mentions c (s ++ t) = mentions c s || mentions c t.
Proof.
  induction s as [|c' s IH]; [reflexivity|].
  rewrite append_cons. simpl. now rewrite IH, orb_assoc.
Qed.

Lemma escape_free_append (s t : string) :
  escape_free (s ++ t) = escape_free s && escape_free t.
Proof. unfold escape_free. now rewrite mentions_append, negb_orb. Qed.

Lemma escape_free_uint (d : Decimal.uint) :
  escape_free (NilEmpty.string_of_uint d) = true.
Proof. unfold escape_free. induction d; simpl; auto. Qed.

Lemma escape_free_nilzero (d : Decimal.uint) :
  escape_free (NilZero.string_of_uint d) = true.
Proof. destruct d; try reflexivity; exact (escape_free_uint _). Qed.

Lemma escape_free_str_int (n : Z) : escape_free (str_int n) = true.
Proof.
  unfold str_int, NilZero.string_of_int.
  destruct (Z.to_int n) as [d|d].
  - apply escape_free_nilzero.
  - change (escape_free (NilZero.string_of_uint d) = true).
    apply escape_free_nilzero.
Qed.

Lemma escape_free_zeros (n : nat) : escape_free (replicate_char n "0") = true.
Proof. unfold escape_free. induction n; simpl; auto. Qed.

Lemma escape_free_pad_zero (width : nat) (n : Z) :
  escape_free (pad_zero width n) = true.
Proof.
  unfold pad_zero. rewrite !escape_free_append.
  rewrite escape_free_zeros, escape_free_str_int.
  now destruct (n <? 0).
Qed.

Lemma escape_free_month (m : Z) : escape_free (month_abbr m) = true.
Proof.
  unfold month_abbr.
  match goal with
  | |- context [nth ?i ?l ?d] =>
      destruct (nth_in_or_default i l d) as [Hin | ->]; [|reflexivity];
      revert Hin; generalize (nth i l d)
  end.
  intros s Hin. simpl in Hin.
  repeat (destruct Hin as [<- | Hin]; [reflexivity|]).
  contradiction.
Qed.

Lemma escape_free_level (l : Level) : escape_free (getLevelName l) = true.
Proof. now destruct l. Qed.

(** Text without an escape byte shows as it is. *)
Lemma strip_escape_free (s t : string) :
  escape_free s = true → strip_ansi (s ++ t) = s ++ strip_ansi t.
Proof.
  unfold escape_free, strip_ansi.
  induction s as [|c s IH]; intros Hfree; [reflexivity|].
  rewrite !append_cons. simpl in *.
  destruct (Ascii.eqb c _); [discriminate|].
  now rewrite IH.
Qed.

Lemma strip_escape_free_all (s : string) :
  escape_free s = true → strip_ansi s = s.
Proof.
  intros Hfree. rewrite <- (append_nil_r s) at 1.
  rewrite strip_escape_free by assumption. apply append_nil_r.
Qed.

(** The codes the console format writes are invisible. *)
Lemma strip_color_code (l : Level) (t : string) :
  strip_ansi (color_code l ++ t) = strip_ansi t.
Proof. now destruct l. Qed.

Lemma strip_reset (t : string) :
  strip_ansi (Colorlog.esc [0] ++ t) = strip_ansi t.
Proof. reflexivity. Qed.

Lemma strip_dim (t : string) :
  strip_ansi (Colorlog.esc [1; 90] ++ t) = strip_ansi t.
Proof. reflexivity. Qed.

Lemma strip_name_colour (t : string) :
  strip_ansi (Colorlog.esc [38; 2; 235; 9; 220] ++ t) = strip_ansi t.
Proof. reflexivity. Qed.

Lemma escape_free_spec_timestamp (t : struct_time) :
  escape_free (spec_timestamp t) = true.
Proof.
  unfold spec_timestamp. rewrite !escape_free_append.
  now rewrite escape_free_str_int, escape_free_month, !escape_free_pad_zero.
Qed.

(** The visible text of the console layout and of what follows it. *)
Lemma strip_console_layout (l : Level) (timestamp : string) (ms : Z)
    (name message tail : string) :
  escape_free timestamp = true →
  escape_free name = true →
  escape_free message = true →
  strip_ansi (console_layout (color_code l) (getLevelName l) timestamp ms
                name message ++ tail)
  = visible_console_layout (getLevelName l) timestamp (pad_zero 3 ms)
      name message ++ strip_ansi tail.
Proof.
  intros Hts Hname Hmsg.
  unfold console_layout, visible_console_layout.
  rewrite !append_assoc.
  rewrite strip_color_code.
  rewrite (strip_escape_free (getLevelName l)) by apply escape_free_level.
  rewrite strip_reset.
  rewrite (strip_escape_free ":    [") by reflexivity.
  rewrite (strip_escape_free timestamp) by assumption.
  rewrite (strip_escape_free ",") by reflexivity.
  rewrite strip_dim.
  rewrite (strip_escape_free (pad_zero 3 ms)) by apply escape_free_pad_zero.
  rewrite strip_reset.
  rewrite (strip_escape_free "] - {{") by reflexivity.
  rewrite strip_name_colour.
  rewrite (strip_escape_free name) by assumption.
  rewrite strip_reset.
  rewrite (strip_escape_free "}} @") by reflexivity.
  rewrite strip_color_code.
  now rewrite (strip_escape_free message) by assumption.
Qed.

Lemma mentions_color_code (l : Level) (t : string) :
  mentions (ascii_of_nat 27) (color_code l ++ t) = true.
Proof. now destruct l. Qed.

End TextFacts.

(** ** What a configuration leaves alone, and a logger configured twice *)

Module WorldFacts.
Import Str Time Logging Runtime Loggers Logconfig Sinks More.
Import StrFacts FormatFacts RunFacts ChainFacts.





Lemma failed_frame (name : string) (w : World) :
  fs (failed_app_logger name w) = fs w
  ∧ open_files (failed_app_logger name w) = open_files w
  ∧ sys_stderr (failed_app_logger name w) = sys_stderr w
  ∧ sys_stdout (failed_app_logger name w) = sys_stdout w.
Proof. unfold failed_app_logger. now destruct (ref_of w name). Qed.

(** A failing [app_logger], whichever way [logs/] is unusable. *)
Lemma app_logger_fails (self : Log) (w : World) :
  dirs (fs w) !! "logs" ≠ Some true →
  ∃ e, app_logger self w = (Raises e, failed_app_logger (log_name self) w)
       ∧ is_OSError e = true.
Proof.
  intros Hdir. destruct (dirs (fs w) !! "logs") as [[]|] eqn:Hlogs.
  - contradiction.
  - exists (PermissionError "logs/app.log").
    split; [now apply app_logger_denied | reflexivity].
  - exists (FileNotFoundError "logs/app.log").
    split; [now apply app_logger_missing | reflexivity].
Qed.


(** *** Two handles on one file *)

Lemma substring_prefix (s t : string) :
  String.substring 0 (String.length s) (s ++ t) = s.
Proof.
  induction s as [|c s IH].
  - apply substring_none.
  - rewrite append_cons. simpl. now rewrite IH.
Qed.

(** Writing the bytes just written, at the place they were written,
    changes nothing. *)
Lemma write_at_over (content data : string) :
  write_at (content ++ data) (String.length content) data = content ++ data.
Proof.
  unfold write_at. rewrite substring_prefix, length_append.
  replace (String.length content
           - (String.length content + String.length data))%nat
    with 0%nat by lia.
  replace (String.length content + String.length data
           - (String.length content + String.length data))%nat
    with 0%nat by lia.
  rewrite substring_none. simpl replicate_char.
  rewrite append_nil_l. now rewrite append_nil_r.
Qed.

Lemma file_write_at (id : nat) (path content data : string) (pos : nat)
    (w : World) :
  open_files w !! id =
    Some {| of_path := path; of_append := false; of_pos := pos |} →
  files (fs w) !! path = Some content →
  file_write id data w =
  (Returns tt,
   set_open_files
     (<[id := {| of_path := path; of_append := false;
                 of_pos := (pos + String.length data)%nat |}]>
        (open_files w))
     (set_fs {| dirs := dirs (fs w);
                files := <[path := write_at content pos data]>
                           (files (fs w)) |} w)).
Proof.
  intros Hopen Hfile. unfold file_write. rewrite Hopen. simpl.
  now rewrite Hfile.
Qed.

(** One logging call through the four sinks of a logger configured
    twice: one more line in the file, two more on standard error. *)
Lemma log_step_doubled ref name id content lvl msg exc stamp w :
  sinks_doubled w ref name id content →
  let r := record_of name lvl msg exc stamp in
  ∃ w',
    log ref lvl msg exc stamp w = (Returns tt, w')
    ∧ sinks_doubled w' ref name id (content ++ file_text r)
    ∧ sys_stderr w' = sys_stderr w ++ console_text r ++ console_text r
    ∧ sys_stdout w' = sys_stdout w.
Proof.
  intros (Hname & Hreach & Hlevel & Hopen & Hopen' & Hfile) r.
  eexists. split.
  - rewrite log_run by (assumption || now rewrite Hreach).
    rewrite Hreach, Hname. fold r. cbn [call_each].
    rewrite !level_enabled.
    erewrite bind_returns.
    2:{ rewrite emit_file.
        apply (file_write_at _ "logs/app.log" content _
                 (String.length content)); assumption. }
    erewrite bind_returns; [|apply emit_console].
    erewrite bind_returns.
    2:{ rewrite emit_file.
        apply (file_write_at _ "logs/app.log" (content ++ file_text r)
                 _ (String.length content)).
        - cbn [set_stderr set_open_files set_fs open_files].
          rewrite lookup_insert_ne by lia. exact Hopen'.
        - cbn [set_stderr set_open_files set_fs fs files].
          rewrite lookup_insert_eq. now rewrite write_at_end. }
    erewrite bind_returns; [|apply emit_console].
    rewrite mret_run. reflexivity.
  - unfold sinks_doubled.
    rewrite (deref_ext w), (ancestry_ext w), (getEffectiveLevel_ext w)
      by reflexivity.
    cbn [set_stderr set_open_files set_fs open_files fs files sys_stderr
         sys_stdout].
    split; [|split].
    + split; [assumption|]. split; [assumption|]. split; [assumption|].
      split; [|split].
      * rewrite lookup_insert_ne by lia. rewrite lookup_insert_eq.
        now rewrite length_append.
      * rewrite lookup_insert_eq. now rewrite length_append.
      * rewrite lookup_insert_eq. now rewrite write_at_over.
    + now rewrite !append_assoc.
    + reflexivity.
Qed.

Lemma log_all_doubled ref name id calls : ∀ content w,
  sinks_doubled w ref name id content →
  ∃ w',
    log_all ref calls w = (Returns tt, w')
    ∧ files (fs w') !! "logs/app.log"
      = Some (content ++ concat_map file_text (records_of name calls))
    ∧ sys_stderr w'
      = sys_stderr w
        ++ concat_map (λ r, console_text r ++ console_text r)
             (records_of name calls)
    ∧ sys_stdout w' = sys_stdout w.
Proof.
  induction calls as [|[[lvl msg] stamp] calls IH]; intros content w Hready.
  - exists w. cbn [log_all records_of map concat_map].
    rewrite !append_nil_r.
    destruct Hready as (_ & _ & _ & _ & _ & Hfile). auto.
  - destruct (log_step_doubled ref name id content lvl msg None stamp w Hready)
      as (w1 & Hlog & Hnext & Herr1 & Hout1).
    destruct (IH _ _ Hnext) as (w' & Hrest & Hfile & Herr & Hout).
    exists w'. cbn [log_all records_of map concat_map].
    rewrite (bind_returns _ _ _ _ _ Hlog), Hrest.
    split; [reflexivity|].
    rewrite Hfile, Herr, Hout, Herr1, Hout1, !append_assoc. auto.
Qed.

(** *** Fresh processes *)

Lemma insert_alone (name : string) (l : Logger) (m : gmap string Logger) :
  (∀ c, (String.length c < String.length name)%nat → m !! c = None) →
  ∀ c, (String.length c < String.length name)%nat →
       <[name := l]> m !! c = None.
Proof.
  intros Halone c Hlen. rewrite lookup_insert_ne; [now apply Halone|].
  intros ->. lia.
Qed.

Lemma loggerDict_after_named (name : string) (w : World) :
  ref_of w name = NamedLogger name →
  loggerDict (after_app_logger name w)
  = <[name := configured (next_id w) (deref w (NamedLogger name))]>
      (loggerDict w).
Proof. intros Href. unfold after_app_logger. now rewrite Href. Qed.

Lemma loggerDict_after_root (name : string) (w : World) :
  ref_of w name = RootLogger →
  loggerDict (after_app_logger name w) = loggerDict w.
Proof. intros Href. unfold after_app_logger. now rewrite Href. Qed.

Lemma root_after_named (name : string) (w : World) :
  ref_of w name = NamedLogger name →
  root (after_app_logger name w) = root w.
Proof. intros Href. unfold after_app_logger. now rewrite Href. Qed.

(** Two configurations in a row in a fresh process. *)
Lemma doubled_after_second (x : FS) (name : string) :
  sinks_doubled
    (after_app_logger name (after_app_logger name (fresh_process x)))
    (ref_of (fresh_process x) name) (registered_name name) 0 "".
Proof.
  set (w0 := fresh_process x).
  set (w1 := after_app_logger name w0).
  pose proof (ref_of_fresh x name) as Href. fold w0 in Href.
  assert (ref_of w1 name = ref_of w0 name) as Href1
    by (unfold w1; apply ref_of_after).
  assert (deref (after_app_logger name w1) (ref_of w0 name)
          = configured 2 (configured 0 (deref w0 (ref_of w0 name))))
    as Hderef.
  { rewrite <- Href1 at 1. rewrite deref_after, Href1.
    unfold w1. now rewrite deref_after, next_id_after. }
  assert (open_files (after_app_logger name w1)
          = <[2%nat := app_log]> (<[0%nat := app_log]> ∅)) as Hopen.
  { rewrite open_files_after. unfold w1.
    now rewrite open_files_after, next_id_after. }
  unfold registered_name.
  destruct (String.eqb name "" || String.eqb name "root") eqn:Hroot;
    rewrite Href in *.
  - split; [|split; [|split; [|split; [|split]]]].
    + now rewrite Hderef.
    + unfold ancestry. destruct (String.length _); cbn [chain reached];
        change (root (after_app_logger name w1))
          with (deref (after_app_logger name w1) RootLogger);
        now rewrite Hderef.
    + rewrite effective_level_own; rewrite Hderef; [reflexivity|].
      intros Hzero; discriminate Hzero.
    + rewrite Hopen. now rewrite lookup_insert_ne by lia.
    + rewrite Hopen. apply lookup_insert_eq.
    + rewrite files_after. apply lookup_insert_eq.
  - apply orb_false_iff in Hroot as [Hempty _].
    apply String.eqb_neq in Hempty.
    assert (deref w0 (NamedLogger name) = new_logger name) as Hnew
      by (cbn [deref w0 fresh_process loggerDict]; now rewrite lookup_empty).
    rewrite Hnew in Hderef.
    split; [|split; [|split; [|split; [|split]]]].
    + now rewrite Hderef.
    + rewrite ancestry_alone.
      * rewrite Hderef. rewrite root_after_named by assumption.
        unfold w1. rewrite root_after_named by assumption. reflexivity.
      * assumption.
      * now rewrite Hderef.
      * rewrite loggerDict_after_named by assumption.
        apply insert_alone. unfold w1.
        rewrite loggerDict_after_named by assumption.
        apply insert_alone. intros c _. apply lookup_empty.
    + rewrite effective_level_own; rewrite Hderef; [reflexivity|].
      intros Hzero; discriminate Hzero.
    + rewrite Hopen. now rewrite lookup_insert_ne by lia.
    + rewrite Hopen. apply lookup_insert_eq.
    + rewrite files_after. apply lookup_insert_eq.
Qed.

(** A logger obtained after the root logger was configured: it holds
    no handler and no level of its own, and reaches the root's sinks. *)
Lemma ready_under_root (x : FS) (root_name name : string) :
  String.eqb root_name "" || String.eqb root_name "root" = true →
  String.eqb name "" || String.eqb name "root" = false →
  let w1 := after_app_logger root_name (fresh_process x) in
  getLogger name w1
  = (Returns (NamedLogger name), store (NamedLogger name) (new_logger name) w1)
  ∧ sinks_ready (store (NamedLogger name) (new_logger name) w1)
      (NamedLogger name) name 0 "".
Proof.
  intros Hroot Hname w1.
  set (w0 := fresh_process x) in *.
  assert (ref_of w0 root_name = RootLogger) as Href0
    by (unfold w0; rewrite ref_of_fresh; now rewrite Hroot).
  assert (root w1 = configured 0 fresh_root) as Hroot1
    by (change (root w1) with (deref w1 RootLogger); unfold w1;
        rewrite <- Href0; now rewrite deref_after, Href0).
  assert (loggerDict w1 = ∅) as Hdict1
    by (unfold w1; now rewrite loggerDict_after_root).
  assert (ref_of w1 name = NamedLogger name) as Href1
    by (unfold ref_of; rewrite Hroot1; cbn [configured l_name fresh_root];
        now rewrite Hname).
  assert (deref w1 (NamedLogger name) = new_logger name) as Hnew
    by (cbn [deref]; now rewrite Hdict1, lookup_empty).
  apply orb_false_iff in Hname as [Hempty _].
  apply String.eqb_neq in Hempty.
  split.
  - rewrite getLogger_run, Href1. now rewrite Hnew.
  - set (w2 := store (NamedLogger name) (new_logger name) w1).
    assert (deref w2 (NamedLogger name) = new_logger name) as Hderef
      by apply deref_store.
    assert (root w2 = configured 0 fresh_root) as Hroot2 by exact Hroot1.
    assert (ancestry w2 (NamedLogger name)
            = [new_logger name; configured 0 fresh_root]) as Hchain.
    { rewrite ancestry_alone.
      - now rewrite Hderef, Hroot2.
      - assumption.
      - now rewrite Hderef.
      - unfold w2. cbn [store set_loggerDict loggerDict]. rewrite Hdict1.
        apply singleton_alone. }
    split; [|split; [|split; [|split]]].
    + now rewrite Hderef.
    + now rewrite Hchain.
    + unfold getEffectiveLevel. now rewrite Hchain.
    + unfold w2. cbn [store set_loggerDict open_files]. unfold w1.
      rewrite open_files_after. apply lookup_insert_eq.
    + unfold w2. cbn [store set_loggerDict fs]. unfold w1.
      rewrite files_after. apply lookup_insert_eq.
Qed.

End WorldFacts.

(** ** Loggers outside the subtree of a configured logger *)

Module FrameFacts.
Import Str Time Logging Runtime Loggers Logconfig Sinks More.
Import StrFacts FormatFacts RunFacts ChainFacts WorldFacts.













End FrameFacts.

(** ** Further properties of [logconfig.py] *)

Module Extras.
Import Str Time Logging Runtime Loggers Logconfig Sinks More.
Import StrFacts FormatFacts RunFacts ChainFacts TextFacts WorldFacts.
Import FrameFacts.

(** X1: in a fresh process whose [logs/] is writable, after
    [logger = Log(name).app_logger()] every call on [logger], at
    whichever of the five levels, adds exactly one line to
    [logs/app.log] and one line to standard error, in the order of the
    calls; what the file held before the process started is gone and
    nothing goes to standard output. The records carry the logger's
    registered name. *)
Theorem first_configuration_routes_each_record (x : FS) (name : string)
    (calls : list Call) :
  dirs x !! "logs" = Some true →
  ∃ ref w',
    configure_and_log name calls (fresh_process x) = (Returns ref, w')
    ∧ files (fs w') !! "logs/app.log"
      = Some (concat_map file_text (records_of (registered_name name) calls))
    ∧ sys_stderr w'
      = concat_map console_text (records_of (registered_name name) calls)
    ∧ sys_stdout w' = "".
Proof.
  intros Hdir. set (w0 := fresh_process x).
  destruct (log_all_ready (ref_of w0 name) (registered_name name) 0 calls ""
              (after_app_logger name w0) (ready_after_first x name))
    as (w' & Hlog & Hready & Herr & Hout & _).
  exists (ref_of w0 name), w'. split.
  - unfold configure_and_log.
    erewrite bind_returns;
      [|apply app_logger_run; [apply fresh_ids | exact Hdir]].
    cbn [log_name]. fold w0. now rewrite (bind_returns _ _ _ _ _ Hlog).
  - destruct Hready as (_ & _ & _ & _ & Hfile).
    rewrite Hfile, Herr, Hout.
    rewrite (proj1 (streams_after name w0)), (proj2 (streams_after name w0)).
    now rewrite !append_nil_l.
Qed.

(** The theorem at work: three calls after [Log("test").app_logger()]. *)
Lemma first_configuration_routes_each_record_witness :
  dirs with_logs_dir !! "logs" = Some true
  ∧ ∃ ref w',
      configure_and_log "test"
        [(DEBUG, "starting", (noon, 0)); (WARNING, "low disk", (noon, 7));
         (CRITICAL, "stopping", (noon, 9))]
        (fresh_process with_logs_dir) = (Returns ref, w')
      ∧ files (fs w') !! "logs/app.log" = Some
"DEBUG:    2026-11-03 12:00:05,000 - test - starting
WARNING:    2026-11-03 12:00:05,007 - test - low disk
CRITICAL:    2026-11-03 12:00:05,009 - test - stopping
".
Proof.
  split; [reflexivity|].
  destruct (first_configuration_routes_each_record with_logs_dir "test"
              [(DEBUG, "starting", (noon, 0)); (WARNING, "low disk", (noon, 7));
               (CRITICAL, "stopping", (noon, 9))])
    as (ref & w' & Hrun & Hfile & _); [reflexivity|].
  exists ref, w'. split; [exact Hrun|].
  rewrite Hfile. vm_compute. reflexivity.
Defined.

(** X2: neither formatter of [Log] can fail on a record, with or
    without exception info: every key its format string names is an
    attribute of the record (or an escape code), every conversion fits
    its value, and every colour of [log_colors] is one colorlog knows. *)
Theorem formatters_never_fail (r : LogRecord) :
  ∃ line text,
    format file_formatter r = Some line
    ∧ format stream_formatter r = Some text.
Proof.
  destruct (file_format_total r) as [line Hline].
  destruct (stream_format_total r) as [text Htext].
  now exists line, text.
Qed.

(** X3: for every record, whatever its time, the file sink and the
    console sink render different timestamps: after the year the file
    formatter writes [-], the console formatter [/]. *)
Theorem timestamps_always_differ (r : LogRecord) :
  formatTime file_formatter r ≠ formatTime stream_formatter r.
Proof.
  rewrite file_formatTime, stream_formatTime. unfold spec_timestamp.
  intros Heq. apply (inj (String.append _)) in Heq.
  discriminate Heq.
Qed.

(** X4: a record whose logger name and message hold no escape byte,
    and which carries no exception, makes a file line without any
    escape byte: the file sink writes no ANSI sequence. *)
Theorem file_line_escape_free (r : LogRecord) :
  escape_free (rec_name r) = true →
  escape_free (rec_msg r) = true →
  rec_exc_info r = None →
  ∃ line, format file_formatter r = Some line ∧ escape_free line = true.
Proof.
  intros Hname Hmsg Hexc. eexists. split; [now apply file_format|].
  unfold spec_file_layout. rewrite file_formatTime.
  rewrite !escape_free_append.
  rewrite escape_free_level, escape_free_str_int, !escape_free_pad_zero.
  now rewrite Hname, Hmsg.
Qed.

(** The theorem at work on a warning. *)
Lemma file_line_escape_free_witness :
  escape_free (rec_name low_disk) = true
  ∧ escape_free (rec_msg low_disk) = true
  ∧ rec_exc_info low_disk = None
  ∧ ∃ line, format file_formatter low_disk = Some line
            ∧ escape_free line = true.
Proof.
  split; [reflexivity|]. split; [reflexivity|]. split; [reflexivity|].
  apply (file_line_escape_free low_disk); reflexivity.
Defined.

(** X5: for such a record the console line does hold escape bytes, and
    with every ANSI sequence removed it reads
    [LEVEL:    [TIMESTAMP,MSEC] - {{LOGGER_NAME}} @MESSAGE], the time as
    [YYYY/Mon/DD HH:MM:SS] and MSEC in three digits. *)
Theorem console_line_visible_text (r : LogRecord) :
  escape_free (rec_name r) = true →
  escape_free (rec_msg r) = true →
  rec_exc_info r = None →
  ∃ text,
    format stream_formatter r = Some text
    ∧ escape_free text = false
    ∧ strip_ansi text
      = visible_console_layout (getLevelName (rec_level r))
          (spec_timestamp (rec_time r)) (pad_zero 3 (rec_msecs r))
          (rec_name r) (rec_msg r).
Proof.
  intros Hname Hmsg Hexc. eexists. split; [now apply stream_format|].
  unfold reset_terminated. split.
  - unfold escape_free.
    destruct (endswith _ _); unfold console_layout;
      rewrite ?append_assoc; now rewrite mentions_color_code.
  - destruct (endswith _ _).
    + rewrite <- (append_nil_r (console_layout _ _ _ _ _ _)).
      rewrite strip_console_layout;
        [apply append_nil_r | apply escape_free_spec_timestamp | | ];
        assumption.
    + rewrite strip_console_layout;
        [apply append_nil_r | apply escape_free_spec_timestamp | | ];
        assumption.
Qed.

(** The theorem at work on a warning. *)
Lemma console_line_visible_text_witness :
  escape_free (rec_name low_disk) = true
  ∧ escape_free (rec_msg low_disk) = true
  ∧ rec_exc_info low_disk = None
  ∧ ∃ text,
      format stream_formatter low_disk = Some text
      ∧ strip_ansi text
        = "WARNING:    [2026/Nov/03 12:00:05,007] - {{test}} @low disk".
Proof.
  split; [reflexivity|]. split; [reflexivity|]. split; [reflexivity|].
  destruct (console_line_visible_text low_disk)
    as (text & Hformat & _ & Hvisible); [reflexivity..|].
  exists text. split; [exact Hformat|].
  rewrite Hvisible. reflexivity.
Defined.





(** X8: run as a script where [logs/] is missing or not writable, the
    module stops with the [OSError] of [app_logger] before any record is
    made: nothing is written on either standard stream by the logging
    calls and the file system is as it was. *)
Theorem script_stops_without_logs (clock : nat → Timestamp) (frames : string)
    (w : World) :
  dirs (fs w) !! "logs" ≠ Some true →
  ∃ e w',
    module_body "__main__" clock frames w = (Raises e, w')
    ∧ is_OSError e = true
    ∧ fs w' = fs w
    ∧ sys_stderr w' = sys_stderr w
    ∧ sys_stdout w' = sys_stdout w.
Proof.
  intros Hdir.
  destruct (app_logger_fails (__init__ "__main__" (Some "__main__")) w Hdir)
    as (e & Hrun & Hos).
  destruct (failed_frame "__main__" w) as (Hfs & _ & Herr & Hout).
  exists e, (failed_app_logger "__main__" w).
  split; [|auto].
  unfold module_body. change (String.eqb "__main__" "__main__") with true.
  cbv iota. unfold main_block. now apply bind_raises.
Qed.

(** The theorem at work: the script started where [logs/] is
    read-only. *)
Lemma script_stops_without_logs_witness :
  dirs (fs (fresh_process readonly_logs_dir)) !! "logs" ≠ Some true
  ∧ ∃ w',
      module_body "__main__" sample_clock sample_frames
        (fresh_process readonly_logs_dir)
      = (Raises (PermissionError "logs/app.log"), w')
      ∧ sys_stderr w' = "".
Proof.
  assert (dirs (fs (fresh_process readonly_logs_dir)) !! "logs" ≠ Some true)
    as Hdir by discriminate.
  split; [exact Hdir|].
  destruct (script_stops_without_logs sample_clock sample_frames
              (fresh_process readonly_logs_dir) Hdir)
    as (e & w' & Hrun & _ & _ & Herr & _).
  exists w'. split; [|exact Herr].
  rewrite Hrun. f_equal.
  assert (module_body "__main__" sample_clock sample_frames
            (fresh_process readonly_logs_dir)
          = (Raises (PermissionError "logs/app.log"),
             failed_app_logger "__main__" (fresh_process readonly_logs_dir)))
    as Hcomputed by (vm_compute; reflexivity).
  rewrite Hrun in Hcomputed. now injection Hcomputed as -> _.
Defined.

(** Two runs of [app_logger] in a row, in closed form. *)
Lemma app_logger_twice_run (name : string) (w : World) :
  ids_allocated w (ref_of w name) = true →
  dirs (fs w) !! "logs" = Some true →
  app_logger_twice name w
  = (Returns (ref_of w name),
     after_app_logger name (after_app_logger name w)).
Proof.
  intros Hids Hdir. unfold app_logger_twice.
  erewrite bind_returns; [|now apply app_logger_run].
  cbn [log_name].
  rewrite (app_logger_run {| log_name := name |}); cbn [log_name].
  - now rewrite ref_of_after.
  - rewrite ref_of_after. now apply ids_allocated_after.
  - now rewrite dirs_after.
Qed.

(** X9: in a fresh process whose [logs/] is writable, after two calls
    of [Log(name).app_logger()] every call on the logger is written
    twice on standard error but appears once in [logs/app.log]: the two
    file handlers write the same bytes at the same offset of the file
    they both opened in mode [w]. *)
Theorem second_configuration_doubles_console_only (x : FS) (name : string)
    (calls : list Call) :
  dirs x !! "logs" = Some true →
  ∃ ref w',
    configure_twice_and_log name calls (fresh_process x) = (Returns ref, w')
    ∧ files (fs w') !! "logs/app.log"
      = Some (concat_map file_text (records_of (registered_name name) calls))
    ∧ sys_stderr w'
      = concat_map (λ r, console_text r ++ console_text r)
          (records_of (registered_name name) calls).
Proof.
  intros Hdir. set (w0 := fresh_process x).
  destruct (log_all_doubled (ref_of w0 name) (registered_name name) 0 calls ""
              (after_app_logger name (after_app_logger name w0))
              (doubled_after_second x name))
    as (w' & Hlog & Hfile & Herr & _).
  exists (ref_of w0 name), w'. split.
  - unfold configure_twice_and_log.
    erewrite bind_returns;
      [|apply app_logger_twice_run; [apply fresh_ids | exact Hdir]].
    fold w0. now rewrite (bind_returns _ _ _ _ _ Hlog).
  - rewrite Hfile, Herr.
    rewrite (proj1 (streams_after name (after_app_logger name w0))).
    rewrite (proj1 (streams_after name w0)).
    now rewrite !append_nil_l.
Qed.

(** The theorem at work: two calls after two configurations. *)
Lemma second_configuration_doubles_console_only_witness :
  dirs with_logs_dir !! "logs" = Some true
  ∧ ∃ ref w',
      configure_twice_and_log "test"
        [(INFO, "starting", (noon, 0)); (WARNING, "low disk", (noon, 7))]
        (fresh_process with_logs_dir) = (Returns ref, w')
      ∧ files (fs w') !! "logs/app.log" = Some
"INFO:    2026-11-03 12:00:05,000 - test - starting
WARNING:    2026-11-03 12:00:05,007 - test - low disk
"
      ∧ strip_ansi (sys_stderr w') =
"INFO:    [2026/Nov/03 12:00:05,000] - {{test}} @starting
INFO:    [2026/Nov/03 12:00:05,000] - {{test}} @starting
WARNING:    [2026/Nov/03 12:00:05,007] - {{test}} @low disk
WARNING:    [2026/Nov/03 12:00:05,007] - {{test}} @low disk
".
Proof.
  split; [reflexivity|].
  destruct (second_configuration_doubles_console_only with_logs_dir "test"
              [(INFO, "starting", (noon, 0)); (WARNING, "low disk", (noon, 7))])
    as (ref & w' & Hrun & Hfile & Herr); [reflexivity|].
  exists ref, w'. split; [exact Hrun|]. split.
  - rewrite Hfile. vm_compute. reflexivity.
  - rewrite Herr. vm_compute. reflexivity.
Defined.

(** X10: [Log("").app_logger()] and [Log("root").app_logger()]
    configure the root logger. In a fresh process every logger obtained
    afterwards under another name, which has no handler and no level of
    its own, then passes all five levels and sends each of its records,
    under its own name, once to [logs/app.log] and once to standard
    error. *)
Theorem root_configuration_captures_every_logger (x : FS)
    (root_name name : string) (calls : list Call) :
  dirs x !! "logs" = Some true →
  root_name = "" ∨ root_name = "root" →
  name ≠ "" → name ≠ "root" →
  ∃ w',
    configure_root_and_log root_name name calls (fresh_process x)
    = (Returns (NamedLogger name), w')
    ∧ l_handlers (deref w' (NamedLogger name)) = []
    ∧ l_handlers (root w')
      = [file_sink 0; console_sink 1]
    ∧ files (fs w') !! "logs/app.log"
      = Some (concat_map file_text (records_of name calls))
    ∧ sys_stderr w' = concat_map console_text (records_of name calls).
Proof.
  intros Hdir Hroot Hne Hne'.
  assert (String.eqb root_name "" || String.eqb root_name "root" = true)
    as Hrootb by (destruct Hroot as [-> | ->]; reflexivity).
  assert (String.eqb name "" || String.eqb name "root" = false) as Hnameb
    by (apply orb_false_iff; split; now apply String.eqb_neq).
  set (w0 := fresh_process x).
  destruct (ready_under_root x root_name name Hrootb Hnameb)
    as [Hget Hready]. fold w0 in Hget, Hready.
  set (w1 := after_app_logger root_name w0) in *.
  set (w2 := store (NamedLogger name) (new_logger name) w1) in *.
  destruct (log_all_ready (NamedLogger name) name 0 calls "" w2 Hready)
    as (w' & Hlog & Hready' & Herr & _ & _ & Hd & Hr).
  exists w'. split.
  - unfold configure_root_and_log.
    erewrite bind_returns;
      [|apply app_logger_run; [apply fresh_ids | exact Hdir]].
    cbn [log_name]. fold w0. fold w1.
    rewrite (bind_returns _ _ _ _ _ Hget).
    now rewrite (bind_returns _ _ _ _ _ Hlog).
  - destruct Hready' as (_ & _ & _ & _ & Hfile).
    split.
    { rewrite (deref_ext w2 w') by assumption. unfold w2.
      now rewrite deref_store. }
    split.
    { rewrite Hr. unfold w2. cbn [store set_loggerDict root].
      change (root w1) with (deref w1 RootLogger). unfold w1.
      assert (ref_of w0 root_name = RootLogger) as Href0
        by (unfold w0; rewrite ref_of_fresh; now rewrite Hrootb).
      rewrite <- Href0. now rewrite deref_after, Href0. }
    split; [now rewrite Hfile, append_nil_l|].
    rewrite Herr. unfold w2. cbn [store set_loggerDict sys_stderr].
    unfold w1. rewrite (proj1 (streams_after root_name w0)).
    now rewrite append_nil_l.
Qed.

(** The theorem at work: [Log("").app_logger()], then a warning
    through [logging.getLogger("worker")]. *)
Lemma root_configuration_captures_every_logger_witness :
  dirs with_logs_dir !! "logs" = Some true
  ∧ ∃ w',
      configure_root_and_log "" "worker" [(WARNING, "low disk", (noon, 7))]
        (fresh_process with_logs_dir) = (Returns (NamedLogger "worker"), w')
      ∧ files (fs w') !! "logs/app.log" = Some
"WARNING:    2026-11-03 12:00:05,007 - worker - low disk
".
Proof.
  split; [reflexivity|].
  destruct (root_configuration_captures_every_logger with_logs_dir "" "worker"
              [(WARNING, "low disk", (noon, 7))])
    as (w' & Hrun & _ & _ & Hfile & _);
    [reflexivity | now left | discriminate | discriminate |].
  exists w'. split; [exact Hrun|].
  rewrite Hfile. vm_compute. reflexivity.
Defined.

End Extras.
